(** * Recruiter Copilot: the parsing, validation and scoring pipeline

    A shallow embedding of
      - [app/agents/analyst/resume_parser.py]  (class [ResumeParser]),
      - [app/agents/analyst/validator.py]      (class [Validator]),
      - [app/agents/architect/scorer.py]       (class [Scorer]),
    followed by the properties of the specification that concern them.

    Conventions of the embedding.
      - A Python [str] is a list of characters.  The model covers 7-bit ASCII
        text: the character predicates below are the ASCII restrictions of
        Python's Unicode ones, and the two non-ASCII characters that occur in
        the patterns of the source (the en dash of the date separators and
        the bullet of the list separators) cannot occur in such a text.
      - Python numbers ([int] and [float]) are rationals: a float stands
        for the rational it denotes, a decimal literal for its decimal
        value, and arithmetic is exact.  The sums of 3, 1.5 and 0.5 and the
        quotients of a number of months by 12 that are rounded below are
        exact in binary floating point too, or away from a tie; the
        weighted total of the scorer is stated for exact arithmetic.
      - A Python [dict] that is read with [.get(key, default)] is a record of
        optional fields; [None] stands for an absent key.
      - [datetime.now()] and [datetime.utcnow()] read an oracle: the n-th call
        of a run returns the n-th reading. *)

From Stdlib Require Import List Ascii String ZArith QArith Qround Qminmax Lia Lqa Bool Permutation Sorted.
Import ListNotations.

Open Scope string_scope.
Open Scope Z_scope.

(** ** Strings *)

Definition str := list ascii.

Coercion list_ascii_of_string : string >-> list.

(** A list of string literals. *)
Definition strs (l : list string) : list str := map list_ascii_of_string l.

Definition code (c : ascii) : nat := nat_of_ascii c.

Definition between (lo hi : nat) (c : ascii) : bool :=
  ((lo <=? code c) && (code c <=? hi))%nat.

(** [str.isspace] on ASCII: tab, line feed, vertical tab, form feed, carriage
    return, the four separators 0x1c..0x1f, and the space. *)
Definition is_space (c : ascii) : bool :=
  between 9 13 c || between 28 32 c.

Definition is_digit (c : ascii) : bool := between 48 57 c.
Definition is_upper (c : ascii) : bool := between 65 90 c.
Definition is_lower (c : ascii) : bool := between 97 122 c.
Definition is_alpha (c : ascii) : bool := is_upper c || is_lower c.
Definition is_alnum (c : ascii) : bool := is_alpha c || is_digit c.

(** The class [\w]. *)
Definition is_word (c : ascii) : bool := is_alnum c || Ascii.eqb c "_".

Definition lower_char (c : ascii) : ascii :=
  if is_upper c then ascii_of_nat (code c + 32) else c.

(** [s.lower()] *)
Definition lower (s : str) : str := map lower_char s.

Fixpoint str_eqb (a b : str) : bool :=
  match a, b with
  | [], [] => true
  | x :: a', y :: b' => Ascii.eqb x y && str_eqb a' b'
  | _, _ => false
  end.

Fixpoint drop_while (p : ascii -> bool) (s : str) : str :=
  match s with
  | c :: s' => if p c then drop_while p s' else s
  | [] => []
  end.

(** [s.lstrip()], [s.rstrip()], [s.strip()] *)
Definition lstrip (s : str) : str := drop_while is_space s.
Definition rstrip (s : str) : str := rev (drop_while is_space (rev s)).
Definition strip (s : str) : str := rstrip (lstrip s).

(** [s.split(sep)] for a one-character separator: the pieces between the
    separators, empty pieces included; never the empty list. *)
Fixpoint split_on (sep : ascii) (s : str) : list str :=
  match s with
  | [] => [[]]
  | c :: s' =>
      if Ascii.eqb c sep then [] :: split_on sep s'
      else match split_on sep s' with
           | p :: ps => (c :: p) :: ps
           | [] => [[c]]
           end
  end.

(** [s.split()]: the maximal runs of non-space characters. *)
Fixpoint split_ws_aux (cur : str) (s : str) : list str :=
  match s with
  | [] => match cur with [] => [] | _ => [rev cur] end
  | c :: s' =>
      if is_space c
      then match cur with
           | [] => split_ws_aux [] s'
           | _ => rev cur :: split_ws_aux [] s'
           end
      else split_ws_aux (c :: cur) s'
  end.

Definition split_ws (s : str) : list str := split_ws_aux [] s.

Fixpoint is_prefix (p s : str) : bool :=
  match p, s with
  | [], _ => true
  | x :: p', y :: s' => Ascii.eqb x y && is_prefix p' s'
  | _ :: _, [] => false
  end.

(** [sub in s] *)
Fixpoint is_infix (sub s : str) : bool :=
  is_prefix sub s ||
  match s with
  | [] => false
  | _ :: s' => is_infix sub s'
  end.

(** A slice index of Python: negative indices count from the end, and every
    index is clamped to the string. *)
Definition norm_index (len i : Z) : nat :=
  Z.to_nat (if i <? 0 then Z.max 0 (i + len) else Z.min i len).

(** [s[a:b]] *)
Definition slice (a b : Z) (s : str) : str :=
  let len := Z.of_nat (List.length s) in
  let a' := norm_index len a in
  let b' := norm_index len b in
  firstn (b' - a') (skipn a' s).

(** [s[:n]] for a literal [n >= 0] *)
Definition upto {A : Type} (n : nat) (l : list A) : list A := firstn n l.

(** [int(s)] on a string of decimal digits. *)
Definition digit_val (c : ascii) : Z := Z.of_nat (code c - 48).

Definition int_of_digits (s : str) : Z :=
  fold_left (fun acc c => 10 * acc + digit_val c) s 0.

(** [s.isdigit()] on ASCII: non-empty and all digits. *)
Definition isdigit (s : str) : bool :=
  match s with [] => false | _ => forallb is_digit s end.

(** [str(n)] for an integer. *)
Definition digit_char (d : nat) : ascii := ascii_of_nat (48 + d).

Fixpoint digits_of_pos (fuel : nat) (n : nat) (acc : str) : str :=
  match fuel with
  | O => acc
  | S fuel' =>
      let acc' := digit_char (n mod 10) :: acc in
      if (n <? 10)%nat then acc' else digits_of_pos fuel' (n / 10) acc'
  end.

Definition str_of_int (z : Z) : str :=
  let n := Z.to_nat (Z.abs z) in
  let ds := digits_of_pos (S n) n [] in
  if z <? 0 then "-"%char :: ds else ds.

(** ** Numbers *)

(** [max(a, b)] and [min(a, b)] of Python return the first argument unless
    the second is strictly larger (smaller); [Qmax] and [Qmin] do the same. *)
Definition py_max (a b : Q) : Q := Qmax a b.
Definition py_min (a b : Q) : Q := Qmin a b.

(** Rounding to the nearest integer, ties to the even one. *)
Definition round_half_even (x : Q) : Z :=
  let f := Qfloor x in
  match (x - inject_Z f ?= 1 # 2)%Q with
  | Lt => f
  | Gt => f + 1
  | Eq => if Z.even f then f else f + 1
  end.

(** [round(x, 1)] *)
Definition round1 (x : Q) : Q := (inject_Z (round_half_even (x * 10)) / 10)%Q.

(** ** The clock *)

Record datetime := mkDate {
  year : Z;
  month : Z;
  day : Z;
  time_of_day : Z   (* microseconds since midnight *)
}.

(** The successive readings of the system clock during one run. *)
Definition Clock := nat -> datetime.

(** A computation that may read the clock: it is given the oracle and the
    number of readings made so far, and returns its result with the new
    count. *)
Definition M (A : Type) : Type := Clock -> nat -> A * nat.

Definition ret {A : Type} (a : A) : M A := fun _ n => (a, n).

Definition bind {A B : Type} (m : M A) (f : A -> M B) : M B :=
  fun clk n => let (a, n') := m clk n in f a clk n'.

(** [datetime.now()] *)
Definition now : M datetime := fun clk n => (clk n, S n).

Notation "x <- m ;; k" := (bind m (fun x => k))
  (at level 61, m at next level, right associativity).

(** The result of a run that starts with a fresh oracle. *)
Definition run {A : Type} (m : M A) (clk : Clock) : A := fst (m clk O).

(** ** Regular expressions

    The module [re] of Python's library, for the constructs that the patterns
    of the source use: a backtracking matcher in which an alternation tries
    its branches from left to right and a repetition is greedy. *)

Module Re.

Inductive regex : Type :=
  | Eps                                              (* the empty pattern *)
  | Cls (p : ascii -> bool)                          (* one character of a class *)
  | Cat (a b : regex)                                (* a b *)
  | Alt (a b : regex)                                (* a|b *)
  | Rep (lo : nat) (hi : option nat) (a : regex)     (* a{lo,hi}, greedy *)
  | Grp (i : nat) (a : regex)                        (* the i-th capturing group *)
  | WordB.                                           (* \b *)

(** A position in the subject: the index, the character before it and the
    characters from it on. *)
Record cursor := mkCursor {
  pos : nat;
  prev : option ascii;
  rest : str
}.

Definition start_of (s : str) : cursor := mkCursor O None s.

Definition advance (c : cursor) : option cursor :=
  match rest c with
  | ch :: tl => Some (mkCursor (S (pos c)) (Some ch) tl)
  | [] => None
  end.

(** The spans of the groups that have matched, the latest first. *)
Definition captures := list (nat * (nat * nat)).

Definition at_boundary (c : cursor) : bool :=
  let before := match prev c with Some ch => is_word ch | None => false end in
  let after := match rest c with ch :: _ => is_word ch | [] => false end in
  xorb before after.

Definition below (n : nat) (hi : option nat) : bool :=
  match hi with
  | Some h => (n <? h)%nat
  | None => true
  end.

Section Matcher.

Variable R : Type.

(** [exec r c caps k] matches [r] at [c] and hands the position after the
    match to [k]; when [k] fails, the next way of matching [r] is tried. *)
Fixpoint exec (r : regex) (c : cursor) (caps : captures)
    (k : cursor -> captures -> option R) {struct r} : option R :=
  match r with
  | Eps => k c caps
  | Cls p =>
      match rest c with
      | ch :: tl => if p ch then k (mkCursor (S (pos c)) (Some ch) tl) caps else None
      | [] => None
      end
  | Cat a b => exec a c caps (fun c' caps' => exec b c' caps' k)
  | Alt a b =>
      match exec a c caps k with
      | Some x => Some x
      | None => exec b c caps k
      end
  | Grp i a => exec a c caps (fun c' caps' => k c' ((i, (pos c, pos c')) :: caps'))
  | WordB => if at_boundary c then k c caps else None
  | Rep lo hi a =>
      (fix loop (fuel cnt : nat) (c : cursor) (caps : captures) {struct fuel}
           : option R :=
         let stop := if (lo <=? cnt)%nat then k c caps else None in
         match fuel with
         | O => stop
         | S fuel' =>
             if below cnt hi then
               match exec a c caps
                       (fun c' caps' =>
                          if (pos c <? pos c')%nat || (cnt <? lo)%nat
                          then loop fuel' (S cnt) c' caps'
                          else None)
               with
               | Some x => Some x
               | None => stop
               end
             else stop
         end)
        (match hi with Some h => h | None => lo + List.length (rest c) end)%nat
        O c caps
  end.

End Matcher.

(** A match object: the subject, the span of the match and of its groups. *)
Record Match := mkMatch {
  subject : str;
  m_start : nat;
  m_end : nat;
  m_caps : captures
}.

Fixpoint span_of (i : nat) (caps : captures) : option (nat * nat) :=
  match caps with
  | [] => None
  | (j, sp) :: caps' => if (i =? j)%nat then Some sp else span_of i caps'
  end.

Definition text_of (s : str) (sp : nat * nat) : str :=
  firstn (snd sp - fst sp) (skipn (fst sp) s).

(** [m.group()] *)
Definition group0 (m : Match) : str := text_of (subject m) (m_start m, m_end m).

(** [m.group(i)] for a group that took part in the match (in the patterns
    of the source every group that is read took part); the empty string
    otherwise, as [findall] has it. *)
Definition group (m : Match) (i : nat) : str :=
  match span_of i (m_caps m) with
  | Some sp => text_of (subject m) sp
  | None => []
  end.

(** The match of [r] at the cursor, with the cursor after it. *)
Definition match_at (r : regex) (s : str) (c : cursor) : option (Match * cursor) :=
  exec (Match * cursor) r c []
    (fun c' caps => Some (mkMatch s (pos c) (pos c') caps, c')).

(** The leftmost match of [r] from the cursor on. *)
Fixpoint scan (r : regex) (s : str) (p : nat) (pv : option ascii) (rst : str)
    : option (Match * cursor) :=
  match match_at r s (mkCursor p pv rst) with
  | Some res => Some res
  | None =>
      match rst with
      | ch :: tl => scan r s (S p) (Some ch) tl
      | [] => None
      end
  end.

(** [re.search(r, s)] *)
Definition search (r : regex) (s : str) : option Match :=
  option_map fst (scan r s O None s).

(** [re.match(r, s)] *)
Definition match_ (r : regex) (s : str) : option Match :=
  option_map fst (match_at r s (start_of s)).

Fixpoint iter_from (r : regex) (s : str) (fuel : nat) (c : cursor) : list Match :=
  match fuel with
  | O => []
  | S fuel' =>
      match scan r s (pos c) (prev c) (rest c) with
      | None => []
      | Some (m, c') =>
          if (m_start m <? m_end m)%nat then m :: iter_from r s fuel' c'
          else match advance c' with
               | Some c'' => m :: iter_from r s fuel' c''
               | None => [m]
               end
      end
  end.

(** [list(re.finditer(r, s))]: the successive non-overlapping matches. *)
Definition finditer (r : regex) (s : str) : list Match :=
  iter_from r s (S (List.length s)) (start_of s).

(** [re.findall(r, s)] for a pattern with one group. *)
Definition findall1 (r : regex) (s : str) : list str :=
  map (fun m => group m 1) (finditer r s).

(** [re.findall(r, s)] for a pattern with two groups. *)
Definition findall2 (r : regex) (s : str) : list (str * str) :=
  map (fun m => (group m 1, group m 2)) (finditer r s).

Fixpoint pieces (s : str) (from : nat) (ms : list Match) : list str :=
  match ms with
  | [] => [skipn from s]
  | m :: ms' => text_of s (from, m_start m) :: pieces s (m_end m) ms'
  end.

(** [re.split(r, s)] for a pattern without groups. *)
Definition split (r : regex) (s : str) : list str := pieces s O (finditer r s).

(** *** Building patterns *)

Definition chr (c : ascii) : regex := Cls (Ascii.eqb c).

(** A character under the flag [IGNORECASE]. *)
Definition chr_i (c : ascii) : regex :=
  Cls (fun x => Ascii.eqb (lower_char x) (lower_char c)).

Fixpoint cat (rs : list regex) : regex :=
  match rs with
  | [] => Eps
  | [r] => r
  | r :: rs' => Cat r (cat rs')
  end.

Fixpoint alt (rs : list regex) : regex :=
  match rs with
  | [] => Cls (fun _ => false)
  | [r] => r
  | r :: rs' => Alt r (alt rs')
  end.

Definition lit (s : str) : regex := cat (map chr s).
Definition lit_i (s : str) : regex := cat (map chr_i s).

Definition star (r : regex) : regex := Rep 0 None r.
Definition plus (r : regex) : regex := Rep 1 None r.
Definition opt (r : regex) : regex := Rep 0 (Some 1%nat) r.
Definition times (lo hi : nat) (r : regex) : regex := Rep lo (Some hi) r.
Definition at_least (lo : nat) (r : regex) : regex := Rep lo None r.

Definition one_of (cs : str) : ascii -> bool :=
  fun x => existsb (Ascii.eqb x) cs.

Definition d : regex := Cls is_digit.          (* \d *)
Definition w : regex := Cls is_word.           (* \w *)
Definition s : regex := Cls is_space.          (* \s *)

End Re.


(** ** The records of the pipeline

    Every mapping is the record of the keys the pipeline writes or reads;
    a field of a mapping that is read with [.get] is optional. *)

Record Contact := mkContact {
  name : option str;
  email : option str;
  phone : option str;
  linkedin : option str;
  github : option str;
  location : option str
}.

Record Experience := mkExperience {
  raw_text : option str;
  dates : option (str * str);        (* "start" and "end" *)
  duration_months : option Z;
  title : option str;
  company : option str
}.

Record Education := mkEducation {
  degree_mention : str;
  section_text : str
}.

Record SkillKeyword := mkSkillKeyword {
  keyword : str;
  count : nat
}.

(** The mapping that [ResumeParser.parse] returns and that the validator
    and the scorer read as [resume_data]. *)
Record ResumeData := mkResumeData {
  file_path : option str;
  parsed_at : option datetime;
  raw_text_length : option nat;
  contact : option Contact;
  experience : option (list Experience);
  education : option (list Education);
  skills : option (list str);
  certifications : option (list str);
  summary : option str;
  total_years_experience : option Q;
  skill_keywords : option (list SkillKeyword)
}.

(** The values of an evidence mapping. *)
Inductive EvValue : Type :=
  | EvInt (z : Z)
  | EvNum (q : Q)
  | EvStr (s : str)
  | EvList (l : list str).

Record Flag := mkFlag {
  type : option str;
  severity : option str;
  description : option str;
  evidence : list (str * EvValue)     (* in insertion order *)
}.

(** An entry of the experience list of the professional-network profile. *)
Record LinkedinExperience := mkLinkedinExperience {
  li_title : option str
}.

(** [linkedin_data] *)
Record LinkedinData := mkLinkedinData {
  li_status : option str;
  li_experience : option (list LinkedinExperience)
}.

(** [github_data] *)
Record GithubData := mkGithubData {
  commits_12_months : option Q;
  public_repos : option Q;
  readme_complexity_score : option Q;
  contribution_streak : option Q
}.

(** [semantic_analysis] *)
Record SemanticAnalysis := mkSemanticAnalysis {
  technical_match_score : option Q;
  experience_relevance_score : option Q;
  key_matching_skills : option (list str);
  missing_skills : option (list str)
}.

(** [d.get(key, default)] *)
Definition get {A : Type} (field : option A) (default : A) : A :=
  match field with
  | Some a => a
  | None => default
  end.

(** The truth value of a string or of a list: it is not empty. *)
Definition truthy {A : Type} (l : list A) : bool :=
  match l with [] => false | _ => true end.

Definition is_some {A : Type} (o : option A) : bool :=
  match o with Some _ => true | None => false end.

(** The truth value of a mapping: it holds a key. *)
Definition resume_truthy (r : ResumeData) : bool :=
  is_some (file_path r) || is_some (parsed_at r) || is_some (raw_text_length r)
  || is_some (contact r) || is_some (experience r) || is_some (education r)
  || is_some (skills r) || is_some (certifications r) || is_some (summary r)
  || is_some (total_years_experience r) || is_some (skill_keywords r).

Definition github_truthy (g : GithubData) : bool :=
  is_some (commits_12_months g) || is_some (public_repos g)
  || is_some (readme_complexity_score g) || is_some (contribution_streak g).

Definition semantic_truthy (a : SemanticAnalysis) : bool :=
  is_some (technical_match_score a) || is_some (experience_relevance_score a)
  || is_some (key_matching_skills a) || is_some (missing_skills a).

(** [if x:] for an optional mapping: present and not empty. *)
Definition present {A : Type} (truth : A -> bool) (o : option A) : option A :=
  match o with
  | Some a => if truth a then Some a else None
  | None => None
  end.

(** ** [datetime.strptime]

    The four formats that the parser uses, in the C locale.  As in CPython
    the format becomes a pattern (a blank of the format stands for [\s+],
    the month names are tried longest first, without regard to case), the
    pattern has to match the whole string, and the year has to be at least
    1. *)

Module Strptime.

Import Re.

Inductive format := B_Y | b_Y | m_Y | Y.      (* "%B %Y", "%b %Y", "%m/%Y", "%Y" *)

Definition full_names : list str :=
  strs ["january"; "february"; "march"; "april"; "may"; "june"; "july"; "august";
   "september"; "october"; "november"; "december"].

Definition short_names : list str :=
  strs ["jan"; "feb"; "mar"; "apr"; "may"; "jun"; "jul"; "aug"; "sep"; "oct";
   "nov"; "dec"].

(** The names by decreasing length, as CPython sorts them. *)
Definition full_by_length : list str :=
  strs ["september"; "february"; "november"; "december"; "january"; "october";
   "august"; "march"; "april"; "june"; "july"; "may"].

Definition year_re : regex := Grp 2 (cat [d; d; d; d]).

Definition month_number_re : regex :=
  Grp 1 (alt [Cat (chr "1") (Cls (between 48 50));
              Cat (chr "0") (Cls (between 49 57));
              Cls (between 49 57)]).

Definition pattern_of (f : format) : regex :=
  match f with
  | B_Y => cat [Grp 1 (alt (map lit_i full_by_length)); plus s; year_re]
  | b_Y => cat [Grp 1 (alt (map lit_i short_names)); plus s; year_re]
  | m_Y => cat [month_number_re; chr "/"; year_re]
  | Y => year_re
  end.

Fixpoint index_of (x : str) (l : list str) (i : Z) : option Z :=
  match l with
  | [] => None
  | y :: l' => if str_eqb x y then Some i else index_of x l' (i + 1)
  end.

Definition month_of (f : format) (m : Match) : option Z :=
  match f with
  | B_Y => index_of (lower (group m 1)) full_names 1
  | b_Y => index_of (lower (group m 1)) short_names 1
  | m_Y => Some (int_of_digits (group m 1))
  | Y => Some 1
  end.

(** [datetime.strptime(text, f)]; [None] stands for [ValueError]. *)
Definition strptime (text : str) (f : format) : option datetime :=
  match match_ (pattern_of f) text with
  | None => None
  | Some m =>
      if negb (m_end m =? List.length text)%nat then None
      else
        let y := int_of_digits (group m 2) in
        match month_of f m with
        | Some mo => if y <? 1 then None else Some (mkDate y mo 1 0)
        | None => None
        end
  end.

End Strptime.

(** ** [ResumeParser] *)

Module ResumeParser.

Import Re.

(** *** The tables of the class *)

Definition experience_header : regex :=
  Grp 1 (alt [cat [lit_i "work"; star s; lit_i "experience"];
              cat [lit_i "professional"; star s; lit_i "experience"];
              lit_i "employment";
              cat [lit_i "work"; star s; lit_i "history"];
              lit_i "experience"]).

Definition education_header : regex :=
  Grp 1 (alt [lit_i "education"; lit_i "academic"; lit_i "qualifications";
              lit_i "degrees"]).

Definition skills_header : regex :=
  Grp 1 (alt [lit_i "skills"; cat [lit_i "technical"; star s; lit_i "skills"];
              lit_i "technologies"; lit_i "competencies"; lit_i "expertise"]).

Definition certifications_header : regex :=
  Grp 1 (alt [Cat (lit_i "certification") (opt (chr_i "s"));
              Cat (lit_i "certificate") (opt (chr_i "s"));
              Cat (lit_i "license") (opt (chr_i "s"));
              lit_i "credentials"]).

Definition projects_header : regex :=
  Grp 1 (alt [lit_i "projects"; cat [lit_i "personal"; star s; lit_i "projects"];
              lit_i "portfolio"]).

Definition summary_header : regex :=
  Grp 1 (alt [lit_i "summary"; lit_i "profile"; lit_i "objective";
              cat [lit_i "about"; star s; lit_i "me"]]).

Definition SECTION_PATTERNS : list (str * regex) :=
  [ ("experience" : str, experience_header);
    ("education" : str, education_header);
    ("skills" : str, skills_header);
    ("certifications" : str, certifications_header);
    ("projects" : str, projects_header);
    ("summary" : str, summary_header) ].

Definition separator : regex := cat [star s; chr "-"; star s].

Definition present_words : regex :=
  alt [lit_i "present"; lit_i "current"; lit_i "now"].

Definition month_year : regex := cat [plus w; plus s; times 4 4 d].
Definition slash_date : regex := cat [times 1 2 d; chr "/"; times 4 4 d].

(** The three date patterns, matched under [re.IGNORECASE]. *)
Definition DATE_PATTERNS : list regex :=
  [ cat [Grp 1 month_year; separator; Grp 2 (Alt month_year present_words)];
    cat [Grp 1 slash_date; separator; Grp 2 (Alt slash_date present_words)];
    cat [Grp 1 (times 4 4 d); separator; Grp 2 (Alt (times 4 4 d) present_words)] ].

Definition EMAIL_PATTERN : regex :=
  cat [plus (Cls (fun c => is_alnum c || one_of "._%+-" c));
       chr "@";
       plus (Cls (fun c => is_alnum c || one_of ".-" c));
       chr ".";
       at_least 2 (Cls is_alpha)].

Definition sep_char : regex := opt (Cls (fun c => one_of "-." c || is_space c)).

Definition PHONE_PATTERN : regex :=
  cat [opt (chr "+"); opt (chr "("); times 1 3 d; opt (chr ")"); sep_char;
       opt (chr "("); times 1 4 d; opt (chr ")"); sep_char;
       times 1 4 d; sep_char; times 1 9 d].

Definition TECH_KEYWORDS : list str :=
  strs [ "python"; "javascript"; "typescript"; "java"; "c++"; "c#"; "go"; "golang";
    "rust"; "ruby"; "php"; "swift"; "kotlin"; "scala"; "r"; "matlab";
    "react"; "angular"; "vue"; "svelte"; "next.js"; "nuxt"; "html"; "css";
    "sass"; "tailwind"; "bootstrap"; "jquery";
    "node.js"; "express"; "fastapi"; "django"; "flask"; "spring"; "rails";
    ".net"; "asp.net"; "laravel"; "nestjs";
    "sql"; "postgresql"; "mysql"; "mongodb"; "redis"; "elasticsearch";
    "snowflake"; "bigquery"; "spark"; "hadoop"; "kafka";
    "aws"; "azure"; "gcp"; "google cloud"; "docker"; "kubernetes"; "terraform";
    "jenkins"; "github actions"; "ci/cd";
    "tensorflow"; "pytorch"; "scikit-learn"; "pandas"; "numpy"; "keras";
    "machine learning"; "deep learning"; "nlp"; "computer vision" ].


(** *** [_extract_section] *)

Fixpoint lookup {A : Type} (k : str) (table : list (str * A)) : option A :=
  match table with
  | [] => None
  | (k', a) :: table' => if str_eqb k k' then Some a else lookup k table'
  end.

(** ["|".join(SECTION_PATTERNS.values())]: the six headers as one
    alternation.  Each of them brings its flag [(?i)]; the versions of
    Python that accept such a flag inside a pattern (those before 3.11)
    apply it to the whole pattern, and the model follows them; the later
    versions, which refuse the pattern, are the subject of [ByVersion]
    below.  No group of this pattern is read. *)
Definition all_patterns : regex := alt (map snd SECTION_PATTERNS).

Definition _extract_section (text : str) (section_name : str) : option str :=
  match lookup section_name SECTION_PATTERNS with
  | None => None
  | Some pattern =>
      match search pattern text with
      | None => None
      | Some m =>
          let start := Z.of_nat (m_end m) in
          let len := Z.of_nat (List.length text) in
          let next_section := search all_patterns (slice start len text) in
          let end_ :=
            match next_section with
            | Some nxt => start + Z.of_nat (m_start nxt)
            | None => Z.min (start + 2000) len
            end in
          Some (strip (slice start end_ text))
      end
  end.

(** [if not section:] holds for [None] and for the empty string. *)
Definition section_or_nothing (o : option str) : option str :=
  match o with
  | Some sec => if truthy sec then Some sec else None
  | None => None
  end.

(** *** [_extract_contact] *)

(** The pattern [[@|www\.|http|\.com]] of the name filter: a character
    class, that is one character out of [@ | w . h t p c o m]. *)
Definition contact_like : regex := Cls (one_of "@|www.|http|.com").

Definition linkedin_url : regex :=
  cat [lit_i "linkedin"; chr "."; lit_i "com/in/";
       Grp 1 (plus (Cls (fun c => is_alnum c || one_of "-" c)))].

Definition github_url : regex :=
  cat [lit_i "github"; chr "."; lit_i "com/";
       Grp 1 (plus (Cls (fun c => is_alnum c || one_of "-" c)))].

(** The loop over [lines[:5]]: the first line that passes both tests. *)
Fixpoint first_name_line (lines : list str) : option str :=
  match lines with
  | [] => None
  | line :: lines' =>
      let line := strip line in
      if truthy line && negb (is_some (search contact_like line))
      then if (List.length (split_ws line) <=? 4)%nat
           then Some line
           else first_name_line lines'
      else first_name_line lines'
  end.

Definition _extract_contact (text : str) : Contact :=
  let email :=
    match search EMAIL_PATTERN text with
    | Some m => Some (group0 m)
    | None => None
    end in
  let phone :=
    match search PHONE_PATTERN text with
    | Some m =>
        let phone := group0 m in
        if (10 <=? List.length (filter is_digit phone))%nat then Some phone else None
    | None => None
    end in
  let linkedin :=
    match search linkedin_url text with
    | Some m => Some (("https://linkedin.com/in/" : str) ++ group m 1)%list
    | None => None
    end in
  let github :=
    match search github_url text with
    | Some m => Some (("https://github.com/" : str) ++ group m 1)%list
    | None => None
    end in
  let lines := split_on "010" (strip text) in
  mkContact (first_name_line (upto 5 lines)) email phone linkedin github None.

(** *** [_parse_date] and [_calculate_duration] *)

Import Strptime.

Definition formats : list format := [B_Y; b_Y; m_Y; Y].

Fixpoint try_formats (date_str : str) (fs : list format) : option datetime :=
  match fs with
  | [] => None
  | f :: fs' =>
      match strptime date_str f with
      | Some dt => Some dt
      | None => try_formats date_str fs'
      end
  end.

Definition _parse_date (date_str : str) : M datetime :=
  let date_str := strip date_str in
  match try_formats date_str formats with
  | Some dt => ret dt
  | None => now
  end.

Definition present_like (end_ : str) : bool :=
  existsb (str_eqb (lower end_)) (strs ["present"; "current"; "now"]).

Definition months_between (start_date end_date : datetime) : Z :=
  (year end_date - year start_date) * 12 + (month end_date - month start_date).

Definition _calculate_duration (start end_ : str) : M Z :=
  start_date <- _parse_date start ;;
  end_date <- (if present_like end_ then now else _parse_date end_) ;;
  ret (Z.max 0 (months_between start_date end_date)).

(** *** [_extract_experience] *)

(** The body of the loop over [enumerate(matches)]; [next] is
    [matches[i + 1]] when there is one. *)
Definition entry (exp_section : str) (m : Match) (next : option Match)
    : M Experience :=
  let start := Z.max 0 (Z.of_nat (m_start m) - 200) in
  let end_ :=
    match next with
    | Some m' => Z.of_nat (m_start m')
    | None => Z.of_nat (m_end m) + 500
    end in
  let entry_text := slice start end_ exp_section in
  months <- _calculate_duration (group m 1) (group m 2) ;;
  ret (mkExperience (Some (upto 300 entry_text))
                    (Some (group m 1, group m 2))
                    (Some months)
                    None
                    None).

Fixpoint entries (exp_section : str) (matches : list Match)
    : M (list Experience) :=
  match matches with
  | [] => ret []
  | m :: rest =>
      e <- entry exp_section m (hd_error rest) ;;
      es <- entries exp_section rest ;;
      ret (e :: es)
  end.

(** The matches of the first date pattern that has one. *)
Fixpoint first_matching (patterns : list regex) (exp_section : str)
    : list Match :=
  match patterns with
  | [] => []
  | p :: patterns' =>
      match finditer p exp_section with
      | [] => first_matching patterns' exp_section
      | ms => ms
      end
  end.

Definition _extract_experience (text : str) : M (list Experience) :=
  match section_or_nothing (_extract_section text "experience") with
  | None => ret []
  | Some exp_section =>
      experiences <- entries exp_section (first_matching DATE_PATTERNS exp_section) ;;
      ret (upto 10 experiences)
  end.

(** *** [_extract_education], [_extract_skills], [_extract_certifications],
    [_extract_summary] *)

Definition degree_patterns : list regex :=
  [ Grp 1 (alt [lit_i "bachelor"; lit_i "master"; lit_i "phd"; lit_i "doctor";
                lit_i "associate"; lit_i "b.s."; lit_i "m.s."; lit_i "b.a.";
                lit_i "m.a."; lit_i "mba"]);
    Grp 1 (alt [lit_i "computer science"; lit_i "engineering"; lit_i "business";
                lit_i "data science"; lit_i "information technology"]) ].

Definition _extract_education (text : str) : list Education :=
  match section_or_nothing (_extract_section text "education") with
  | None => []
  | Some edu_section =>
      flat_map
        (fun pattern =>
           map (fun mention => mkEducation mention (upto 500 edu_section))
               (findall1 pattern edu_section))
        degree_patterns
  end.

(** [[,|•|\n|;]] on ASCII text: comma, bar, line feed, semicolon. *)
Definition skill_delimiter : regex :=
  Cls (fun c => one_of ",|;" c || Ascii.eqb c "010").

Definition _extract_skills (text : str) : list str :=
  match section_or_nothing (_extract_section text "skills") with
  | None => []
  | Some skills_section =>
      let cleaned :=
        filter (fun skill =>
                  truthy skill && (1 <? List.length skill)%nat
                  && (List.length skill <? 50)%nat)
               (map strip (split skill_delimiter skills_section)) in
      upto 30 cleaned
  end.

(** [[\n•]] on ASCII text: the line feed. *)
Definition cert_delimiter : regex := chr "010".

Definition _extract_certifications (text : str) : list str :=
  match section_or_nothing (_extract_section text "certifications") with
  | None => []
  | Some cert_section =>
      let cleaned :=
        filter (fun cert => truthy cert && (5 <? List.length cert)%nat)
               (map strip (split cert_delimiter cert_section)) in
      upto 10 cleaned
  end.

Definition _extract_summary (text : str) : option str :=
  match section_or_nothing (_extract_section text "summary") with
  | Some summary => Some (upto 1000 summary)
  | None => None
  end.

(** *** [_extract_skill_keywords] *)

(** [r"\b" + re.escape(keyword) + r"\b"] *)
Definition keyword_pattern (keyword : str) : regex :=
  cat [WordB; lit keyword; WordB].

(** [keywords.sort(key=count, reverse=True)]: a stable sort, entries of
    equal count keep their order. *)
Fixpoint insert_by_count (x : SkillKeyword) (l : list SkillKeyword)
    : list SkillKeyword :=
  match l with
  | [] => [x]
  | y :: l' =>
      if (count x <? count y)%nat then y :: insert_by_count x l' else x :: l
  end.

Definition sort_by_count (l : list SkillKeyword) : list SkillKeyword :=
  fold_right insert_by_count [] l.

Definition _extract_skill_keywords (text : str) : list SkillKeyword :=
  let text_lower := lower text in
  let keywords :=
    flat_map
      (fun keyword =>
         let matches := finditer (keyword_pattern keyword) text_lower in
         if truthy matches then [mkSkillKeyword keyword (List.length matches)]
         else [])
      TECH_KEYWORDS in
  sort_by_count keywords.

(** *** [_calculate_total_experience] *)

Definition total_months (experiences : list Experience) : Z :=
  fold_left (fun acc exp => acc + get (duration_months exp) 0) experiences 0.

Definition _calculate_total_experience (experiences : list Experience) : Q :=
  round1 (inject_Z (total_months experiences) / 12).

(** *** [parse]

    The part of [parse] after the text of the document has been read:
    [path] is the path of the document and [text] its text. *)
Definition parse (path : str) (text : str) : M ResumeData :=
  stamp <- now ;;                       (* datetime.utcnow() *)
  experiences <- _extract_experience text ;;
  ret (mkResumeData
         (Some path)
         (Some stamp)
         (Some (List.length text))
         (Some (_extract_contact text))
         (Some experiences)
         (Some (_extract_education text))
         (Some (_extract_skills text))
         (Some (_extract_certifications text))
         (_extract_summary text)
         (Some (_calculate_total_experience experiences))
         (Some (_extract_skill_keywords text))).
End ResumeParser.

(** ** [Validator] *)

Module Validator.

Import Re.

(** The table of release years, in the order of the source (the order in
    which a Python [dict] is iterated). *)
Definition TECH_RELEASE_DATES : list (str * Z) :=
  map (fun kv => (list_ascii_of_string (fst kv), snd kv))
  [ ("react", 2013); ("react native", 2015); ("vue", 2014); ("vue.js", 2014);
    ("angular", 2016); ("svelte", 2016); ("next.js", 2016); ("tailwind", 2017);
    ("tailwindcss", 2017);
    ("fastapi", 2018); ("nestjs", 2017); ("deno", 2018);
    ("kubernetes", 2014); ("terraform", 2014); ("github actions", 2019);
    ("docker", 2013); ("aws lambda", 2014);
    ("pytorch", 2016); ("tensorflow", 2015); ("gpt", 2018); ("langchain", 2022);
    ("openai api", 2020); ("llm", 2020);
    ("rust", 2010); ("go", 2009); ("golang", 2009); ("kotlin", 2011);
    ("swift", 2014); ("typescript", 2012);
    ("snowflake", 2014); ("cockroachdb", 2015); ("planetscale", 2018) ].

Definition SEVERITY_LOW : str := "LOW".
Definition SEVERITY_MEDIUM : str := "MEDIUM".
Definition SEVERITY_HIGH : str := "HIGH".

(** *** [_validate_experience_claims] *)

Definition years_re : regex := Cat (lit "year") (opt (chr "s")).    (* years? *)

Definition tech_re : regex :=
  plus (Cls (fun c => is_alpha c || is_space c || one_of ".-" c)).

(** The three patterns of the claims, each with two groups. *)
Definition patterns : list regex :=
  [ cat [Grp 1 (plus d); opt (chr "+"); star s; years_re; plus s;
         opt (Cat (lit "of") (plus s));
         opt (Cat (lit "experience") (plus s));
         alt [lit "with"; lit "in"; lit "using"];
         plus s; Grp 2 tech_re];
    cat [Grp 1 tech_re; plus s; lit "expert"; plus s; lit "with"; plus s;
         Grp 2 (plus d); opt (chr "+"); star s; years_re];
    cat [Grp 1 (plus d); opt (chr "+"); star s; years_re; plus s;
         Grp 2 tech_re; plus s;
         alt [lit "developer"; lit "engineer"; lit "developer"]] ].

(** The text that is scanned: the summary and the excerpt of every
    experience entry, in lower case. *)
Definition full_text (resume_data : ResumeData) : str :=
  fold_left
    (fun acc exp => (acc ++ (" " : str) ++ lower (get (raw_text exp) []))%list)
    (get (experience resume_data) [])
    (lower (get (summary resume_data) [])).

(** Which group holds the years and which the technology. *)
Definition years_and_tech (m : str * str) : Z * str :=
  if isdigit (fst m)
  then (int_of_digits (fst m), lower (strip (snd m)))
  else (int_of_digits (snd m), lower (strip (fst m))).

Definition mismatch_flag (years max_possible_years : Z) (known_tech : str)
    (release_year : Z) : Flag :=
  mkFlag
    (Some ("EXPERIENCE_MISMATCH" : str))
    (Some SEVERITY_HIGH)
    (Some (("Claims " : str) ++ str_of_int years
           ++ (" years experience with " : str) ++ known_tech
           ++ (", but it was released in " : str) ++ str_of_int release_year
           ++ (" (" : str) ++ str_of_int max_possible_years
           ++ (" years ago)" : str))%list)
    [ ("claimed_years" : str, EvInt years);
      ("max_possible_years" : str, EvInt max_possible_years);
      ("technology" : str, EvStr known_tech);
      ("release_year" : str, EvInt release_year) ].

(** The loop over the table for one match: it stops at the first entry
    whose name occurs in the technology of the match. *)
Fixpoint check_claim (current_year years : Z) (tech : str)
    (table : list (str * Z)) : list Flag :=
  match table with
  | [] => []
  | (known_tech, release_year) :: table' =>
      if is_infix known_tech tech then
        let max_possible_years := current_year - release_year in
        if years >? max_possible_years + 1
        then [mismatch_flag years max_possible_years known_tech release_year]
        else []
      else check_claim current_year years tech table'
  end.

Definition _validate_experience_claims (current_year : Z)
    (resume_data : ResumeData) : list Flag :=
  let text := full_text resume_data in
  flat_map
    (fun pattern =>
       flat_map
         (fun m =>
            let (years, tech) := years_and_tech m in
            check_claim current_year years tech TECH_RELEASE_DATES)
         (findall2 pattern text))
    patterns.

(** *** [_validate_resume_vs_linkedin] *)

(** A Python [set] of strings, as the list of its elements without
    repetition (the order in which Python iterates a set is not fixed; the
    list keeps the order of insertion). *)
Definition set_add (x : str) (l : list str) : list str :=
  if existsb (str_eqb x) l then l else (l ++ [x])%list.

Definition intersection (a b : list str) : list str :=
  filter (fun x => existsb (str_eqb x) b) a.

Definition resume_titles_of (exps : list Experience) : list str :=
  fold_left
    (fun acc exp =>
       match title exp with
       | Some t => if truthy t then set_add (lower t) acc else acc
       | None => acc
       end)
    exps [].

Definition linkedin_titles_of (exps : list LinkedinExperience) : list str :=
  fold_left
    (fun acc exp =>
       match li_title exp with
       | Some t => if truthy t then set_add (lower t) acc else acc
       | None => acc
       end)
    exps [].

Definition title_flag (resume_titles linkedin_titles : list str) : Flag :=
  mkFlag
    (Some ("TITLE_MISMATCH" : str))
    (Some SEVERITY_MEDIUM)
    (Some ("Job titles on resume don't match LinkedIn profile" : str))
    [ ("resume_titles" : str, EvList (upto 3 resume_titles));
      ("linkedin_titles" : str, EvList (upto 3 linkedin_titles)) ].

Definition status_failed (linkedin_data : LinkedinData) : bool :=
  match li_status linkedin_data with
  | Some st => str_eqb st "scraping_failed"
  | None => false
  end.

Definition _validate_resume_vs_linkedin (resume_data : ResumeData)
    (linkedin_data : LinkedinData) : list Flag :=
  if status_failed linkedin_data then []
  else
    let resume_experience := get (experience resume_data) [] in
    let linkedin_experience := get (li_experience linkedin_data) [] in
    let resume_titles := resume_titles_of resume_experience in
    let linkedin_titles := linkedin_titles_of linkedin_experience in
    if truthy resume_titles && truthy linkedin_titles then
      let overlap := intersection resume_titles linkedin_titles in
      if negb (truthy overlap)
         && (2 <? List.length resume_titles)%nat
         && (2 <? List.length linkedin_titles)%nat
      then [title_flag resume_titles linkedin_titles]
      else []
    else [].

(** *** [get_credibility_score] *)

Definition deduction (flag : Flag) : Q :=
  let severity := get (severity flag) SEVERITY_LOW in
  if str_eqb severity SEVERITY_HIGH then 3
  else if str_eqb severity SEVERITY_MEDIUM then 1.5
  else 0.5.

Definition get_credibility_score (flags : list Flag) : Q :=
  if negb (truthy flags) then 10.0
  else
    let deductions := fold_left (fun acc flag => acc + deduction flag)%Q flags 0%Q in
    let score := py_max 0 (10 - deductions)%Q in
    round1 score.

(** *** The profile of the code-hosting site as the validator reads it *)

(** An entry of [top_languages]: a mapping with a name, or a bare string. *)
Inductive Language : Type :=
  | LangDict (lang_name : str)
  | LangStr (lang : str).

(** [github_data] with the key [top_languages], which the validator reads
    beside the keys of [GithubData]. *)
Record GithubProfile := mkGithubProfile {
  activity : GithubData;
  top_languages : option (list Language)
}.

Definition profile_truthy (g : GithubProfile) : bool :=
  github_truthy (activity g) || is_some (top_languages g).

Definition linkedin_truthy (l : LinkedinData) : bool :=
  is_some (li_status l) || is_some (li_experience l).

(** [s.upper()] *)
Definition upper (s : str) : str :=
  map (fun c => if is_lower c then ascii_of_nat (code c - 32) else c) s.

(** [skill.replace("++", "pp")] *)
Fixpoint replace_plus_plus (s : str) : str :=
  match s with
  | "+"%char :: "+"%char :: s' => "p"%char :: "p"%char :: replace_plus_plus s'
  | c :: s' => c :: replace_plus_plus s'
  | [] => []
  end.

(** [a > b] *)
Definition gt (a b : Q) : bool := negb (Qle_bool a b).

(** [a < b] *)
Definition lt (a b : Q) : bool := negb (Qle_bool b a).

(** *** [_validate_experience_timeline]

    In this check and in the next ones [fmt] is the text that an f-string
    puts for a number. *)

Definition _validate_experience_timeline (fmt : Q -> str)
    (resume_data : ResumeData) : list Flag :=
  let total_years := get (total_years_experience resume_data) 0%Q in
  if gt total_years 30 then
    [ mkFlag
        (Some ("EXCESSIVE_EXPERIENCE" : str))
        (Some SEVERITY_MEDIUM)
        (Some (("Total experience claimed is " : str) ++ fmt total_years
               ++ (" years, which is unusually high" : str))%list)
        [ ("total_years" : str, EvNum total_years) ] ]
  else [].

(** *** [_validate_skills_vs_github] *)

Definition claimed_skills_of (keywords : list SkillKeyword) : list str :=
  fold_left (fun acc skill => set_add (lower (keyword skill)) acc) keywords [].

Definition language_name (l : Language) : str :=
  match l with
  | LangDict n => lower n
  | LangStr s => lower s
  end.

Definition github_languages_of (langs : list Language) : list str :=
  fold_left (fun acc l => set_add (language_name l) acc) langs [].

Definition major_language_claims : list str :=
  strs ["python"; "javascript"; "java"; "go"; "rust"; "typescript"; "c++"].

Definition mem (x : str) (l : list str) : bool := existsb (str_eqb x) l.

Definition skill_flag (skill : str) (github_languages : list str) : Flag :=
  mkFlag
    (Some ("SKILL_NOT_VERIFIED" : str))
    (Some SEVERITY_MEDIUM)
    (Some (("Claims " : str) ++ upper skill
           ++ (" expertise on resume, but no " : str) ++ upper skill
           ++ (" repos found on GitHub" : str))%list)
    [ ("claimed_skill" : str, EvStr skill);
      ("github_languages" : str, EvList github_languages) ].

Definition _validate_skills_vs_github (resume_data : ResumeData)
    (github_data : GithubProfile) : list Flag :=
  let claimed_skills := claimed_skills_of (get (skill_keywords resume_data) []) in
  let github_languages := github_languages_of (get (top_languages github_data) []) in
  flat_map
    (fun skill =>
       if mem skill major_language_claims then
         let skill_variants := set_add (replace_plus_plus skill) [skill] in
         if negb (existsb (fun s => mem s github_languages) skill_variants) then
           if gt (get (public_repos (activity github_data)) 0%Q) 5
           then [skill_flag skill github_languages]
           else []
         else []
       else [])
    claimed_skills.

(** *** [_validate_activity_level] *)

Definition _validate_activity_level (fmt : Q -> str) (resume_data : ResumeData)
    (github_data : GithubProfile) : list Flag :=
  let total_years := get (total_years_experience resume_data) 0%Q in
  let commits := get (commits_12_months (activity github_data)) 0%Q in
  let public_repos := get (public_repos (activity github_data)) 0%Q in
  if Qle_bool 5 total_years then
    if lt commits 50 && lt public_repos 5 then
      [ mkFlag
          (Some ("LOW_GITHUB_ACTIVITY" : str))
          (Some SEVERITY_LOW)
          (Some (("Claims " : str) ++ fmt total_years
                 ++ (" years experience but has minimal GitHub activity (" : str)
                 ++ fmt commits ++ (" commits, " : str) ++ fmt public_repos
                 ++ (" repos in last year)" : str))%list)
          [ ("years_experience" : str, EvNum total_years);
            ("github_commits_12m" : str, EvNum commits);
            ("github_repos" : str, EvNum public_repos) ] ]
    else []
  else [].

(** *** [validate] *)

Definition validate (fmt : Q -> str) (current_year : Z)
    (resume_data : option ResumeData) (github_data : option GithubProfile)
    (linkedin_data : option LinkedinData) : list Flag :=
  match present resume_truthy resume_data with
  | None => []
  | Some rd =>
      (_validate_experience_claims current_year rd
       ++ _validate_experience_timeline fmt rd
       ++ match present profile_truthy github_data with
          | Some gd =>
              _validate_skills_vs_github rd gd ++ _validate_activity_level fmt rd gd
          | None => []
          end
       ++ match present linkedin_truthy linkedin_data with
          | Some ld => _validate_resume_vs_linkedin rd ld
          | None => []
          end)%list
  end.

End Validator.

(** ** [Scorer]

    The scorer with its numbers read as exact rationals.  The sub-scores
    are built from halves and quarters and thresholds, where this reading
    and the floats of the code agree; the weighted total is a sum of
    products by 0.40, 0.20 and 0.15, which the code computes in binary64:
    [Scorer64] below has the total as the code returns it. *)

Module Scorer.

Open Scope Q_scope.

Record Weights := mkWeights {
  w_technical_match : Q;
  w_experience_depth : Q;
  w_activity_score : Q;
  w_credibility : Q
}.

Definition WEIGHTS : Weights := mkWeights 0.40 0.25 0.20 0.15.

Definition commits_excellent : Q := 500.
Definition commits_good : Q := 200.
Definition commits_fair : Q := 50.
Definition repos_excellent : Q := 30.
Definition repos_good : Q := 15.
Definition repos_fair : Q := 5.

(** [a >= b] *)
Definition ge (a b : Q) : bool := Qle_bool b a.

Definition clamp (score : Q) : Q := py_max 0 (py_min 10 score).

Definition _calculate_technical_match (resume_data : option ResumeData)
    (semantic_analysis : option SemanticAnalysis) : Q :=
  let score :=
    match present semantic_truthy semantic_analysis with
    | Some sa =>
        let ai_score := get (technical_match_score sa) 5 in
        let score := ai_score in
        let matching_skills := get (key_matching_skills sa) [] in
        let missing_skills := get (missing_skills sa) [] in
        let score :=
          if (5 <=? List.length matching_skills)%nat then score + 0.5
          else if (3 <=? List.length matching_skills)%nat then score + 0.25
          else score in
        if (4 <=? List.length missing_skills)%nat then score - 1.0
        else if (2 <=? List.length missing_skills)%nat then score - 0.5
        else score
    | None =>
        match present resume_truthy resume_data with
        | Some rd =>
            let skill_keywords := get (skill_keywords rd) [] in
            if (15 <=? List.length skill_keywords)%nat then 8.0
            else if (10 <=? List.length skill_keywords)%nat then 7.0
            else if (5 <=? List.length skill_keywords)%nat then 6.0
            else 5.0
        | None => 5.0
        end
    end in
  clamp score.

Definition _calculate_experience_depth (resume_data : option ResumeData)
    (semantic_analysis : option SemanticAnalysis) : Q :=
  let score :=
    match present resume_truthy resume_data with
    | Some rd =>
        let years := get (total_years_experience rd) 0 in
        let score :=
          if ge years 10 then 9.0
          else if ge years 7 then 8.0
          else if ge years 5 then 7.0
          else if ge years 3 then 6.0
          else if ge years 1 then 5.0
          else 4.0 in
        let experience_count := List.length (get (experience rd) []) in
        if (4 <=? experience_count)%nat then score + 0.5 else score
    | None => 5.0
    end in
  let score :=
    match present semantic_truthy semantic_analysis with
    | Some sa =>
        let ai_relevance := get (experience_relevance_score sa) 5 in
        (score + ai_relevance) / 2
    | None => score
    end in
  clamp score.

Definition _calculate_activity_score (github_data : option GithubData) : Q :=
  match present github_truthy github_data with
  | None => 5.0
  | Some gd =>
      let commits := get (commits_12_months gd) 0 in
      let commits_score :=
        if ge commits commits_excellent then 4.0
        else if ge commits commits_good then 3.0
        else if ge commits commits_fair then 2.0
        else 1.0 in
      let repos := get (public_repos gd) 0 in
      let repos_score :=
        if ge repos repos_excellent then 3.0
        else if ge repos repos_good then 2.0
        else if ge repos repos_fair then 1.5
        else 1.0 in
      let readme_score := get (readme_complexity_score gd) 5 / 5 in
      let streak := get (contribution_streak gd) 0 in
      let streak_score := py_min 1.0 (streak / 30) in
      let total := commits_score + repos_score + readme_score + streak_score in
      clamp total
  end.

Definition penalty (flag : Flag) : Q :=
  let severity := get (severity flag) ("LOW" : str) in
  if str_eqb severity "HIGH" then 3.0
  else if str_eqb severity "MEDIUM" then 1.5
  else 0.5.

Definition _calculate_credibility (validation_flags : option (list Flag)) : Q :=
  let score := 10.0 in
  match present truthy validation_flags with
  | None => score
  | Some flags =>
      let score := fold_left (fun score flag => score - penalty flag) flags score in
      clamp score
  end.

Record Interpretation := mkInterpretation {
  rating : str;
  recommendation : str;
  interp_description : str
}.

Definition _interpret_score (score : Q) : Interpretation :=
  if ge score 8.5 then
    mkInterpretation "EXCELLENT" "STRONG_YES"
      "Outstanding candidate with strong technical alignment"
  else if ge score 7.0 then
    mkInterpretation "GOOD" "YES" "Well-qualified candidate worth interviewing"
  else if ge score 5.5 then
    mkInterpretation "FAIR" "MAYBE"
      "Candidate has potential but may lack some requirements"
  else if ge score 4.0 then
    mkInterpretation "BELOW_AVERAGE" "PROBABLY_NO"
      "Significant gaps in qualifications for this role"
  else
    mkInterpretation "POOR" "NO" "Candidate does not meet minimum requirements".

Record Breakdown := mkBreakdown {
  technical_match : Q;
  experience_depth : Q;
  activity_score : Q;
  credibility : Q
}.

Record ScoreResult := mkScoreResult {
  total_score : Q;
  breakdown : Breakdown;
  weights : Weights;
  interpretation : Interpretation
}.

Definition calculate_score (github_data : option GithubData)
    (resume_data : option ResumeData)
    (semantic_analysis : option SemanticAnalysis)
    (validation_flags : option (list Flag)) : ScoreResult :=
  let technical_score := _calculate_technical_match resume_data semantic_analysis in
  let experience_score := _calculate_experience_depth resume_data semantic_analysis in
  let activity_score := _calculate_activity_score github_data in
  let credibility_score := _calculate_credibility validation_flags in
  let total_score :=
    technical_score * w_technical_match WEIGHTS
    + experience_score * w_experience_depth WEIGHTS
    + activity_score * w_activity_score WEIGHTS
    + credibility_score * w_credibility WEIGHTS in
  let total_score := round1 total_score in
  mkScoreResult
    total_score
    (mkBreakdown (round1 technical_score) (round1 experience_score)
                 (round1 activity_score) (round1 credibility_score))
    WEIGHTS
    (_interpret_score total_score).

End Scorer.

(** ** [Scorer] in binary64 arithmetic

    The module [Scorer] above reads the arithmetic of [scorer.py] in exact
    rationals.  The code computes with Python floats; at a tie, or where a
    sub-score has more than one decimal, the total that it returns depends
    on the binary64 values.  This module is [scorer.py] with the numbers as
    the code has them: binary64 floats, the literals as the nearest floats,
    the operations rounded to nearest, and [round(x, 1)] as CPython
    computes it.  An integer of the input is the float of the same
    value. *)

From Stdlib Require PrimFloat FloatOps Uint63.

Module Scorer64.

Import PrimFloat.

#[local] Set Warnings "-inexact-float".

Local Open Scope float_scope.

(** The value of a finite float, apart from its sign. *)
Definition magnitude (m : positive) (e : Z) : Q :=
  (inject_Z (Zpos m) * Qpower 2 e)%Q.

(** The float of a natural number below 2^53. *)
Definition of_Z (n : Z) : float := of_uint63 (Uint63.of_Z n).

(** The float nearest to [n / 10], the way Python reads and prints the
    decimal with one digit after the point. *)
Definition tenths (n : Z) : float := of_Z n / 10.

(** The exact value of a float (0 for infinities and NaN). *)
Definition value (x : float) : Q :=
  match FloatOps.Prim2SF x with
  | SpecFloat.S754_finite negative m e =>
      if negative then (- magnitude m e)%Q else magnitude m e
  | _ => 0%Q
  end.

(** [round(x, 1)] on a float: the float nearest to the decimal with one
    digit after the point that is nearest to the exact value of [x], ties
    to the even digit.  Above 2^49 two neighbouring floats are more than
    0.1 apart and the result is [x] itself; zeros, infinities and NaN are
    returned as they are. *)
Definition py_round1 (x : float) : float :=
  match FloatOps.Prim2SF x with
  | SpecFloat.S754_finite negative m e =>
      if leb 562949953421312 (abs x) then x
      else
        let n := round_half_even (magnitude m e * 10) in
        let r := tenths n in
        if negative then - r else r
  | _ => x
  end.

(** [min(a, b)] and [max(a, b)]: the first argument unless the second is
    strictly smaller (larger). *)
Definition py_min (a b : float) : float := if ltb b a then b else a.
Definition py_max (a b : float) : float := if ltb a b then b else a.

(** [a >= b] *)
Definition ge (a b : float) : bool := leb b a.

Definition clamp (score : float) : float := py_max 0 (py_min 10 score).

(** The mappings as the scorer reads them: the keys it reads, and whether
    the mapping holds any other key (a mapping is true when it holds a
    key). *)
Record GithubData := mkGithubData {
  commits_12_months : option float;
  public_repos : option float;
  readme_complexity_score : option float;
  contribution_streak : option float;
  github_other_keys : bool
}.

Record ResumeData := mkResumeData {
  total_years_experience : option float;
  experience : option (list Experience);
  skill_keywords : option (list SkillKeyword);
  resume_other_keys : bool
}.

Record SemanticAnalysis := mkSemanticAnalysis {
  technical_match_score : option float;
  experience_relevance_score : option float;
  key_matching_skills : option (list str);
  missing_skills : option (list str);
  semantic_other_keys : bool
}.

Definition github_truthy (g : GithubData) : bool :=
  is_some (commits_12_months g) || is_some (public_repos g)
  || is_some (readme_complexity_score g) || is_some (contribution_streak g)
  || github_other_keys g.

Definition resume_truthy (r : ResumeData) : bool :=
  is_some (total_years_experience r) || is_some (experience r)
  || is_some (skill_keywords r) || resume_other_keys r.

Definition semantic_truthy (a : SemanticAnalysis) : bool :=
  is_some (technical_match_score a) || is_some (experience_relevance_score a)
  || is_some (key_matching_skills a) || is_some (missing_skills a)
  || semantic_other_keys a.

Record Weights := mkWeights {
  w_technical_match : float;
  w_experience_depth : float;
  w_activity_score : float;
  w_credibility : float
}.

Definition WEIGHTS : Weights := mkWeights 0.40 0.25 0.20 0.15.

Definition _calculate_technical_match (resume_data : option ResumeData)
    (semantic_analysis : option SemanticAnalysis) : float :=
  let score :=
    match present semantic_truthy semantic_analysis with
    | Some sa =>
        let ai_score := get (technical_match_score sa) 5 in
        let score := ai_score in
        let matching_skills := get (key_matching_skills sa) [] in
        let missing_skills := get (missing_skills sa) [] in
        let score :=
          if (5 <=? List.length matching_skills)%nat then score + 0.5
          else if (3 <=? List.length matching_skills)%nat then score + 0.25
          else score in
        if (4 <=? List.length missing_skills)%nat then score - 1.0
        else if (2 <=? List.length missing_skills)%nat then score - 0.5
        else score
    | None =>
        match present resume_truthy resume_data with
        | Some rd =>
            let skill_keywords := get (skill_keywords rd) [] in
            if (15 <=? List.length skill_keywords)%nat then 8.0
            else if (10 <=? List.length skill_keywords)%nat then 7.0
            else if (5 <=? List.length skill_keywords)%nat then 6.0
            else 5.0
        | None => 5.0
        end
    end in
  clamp score.

Definition _calculate_experience_depth (resume_data : option ResumeData)
    (semantic_analysis : option SemanticAnalysis) : float :=
  let score :=
    match present resume_truthy resume_data with
    | Some rd =>
        let years := get (total_years_experience rd) 0 in
        let score :=
          if ge years 10 then 9.0
          else if ge years 7 then 8.0
          else if ge years 5 then 7.0
          else if ge years 3 then 6.0
          else if ge years 1 then 5.0
          else 4.0 in
        let experience_count := List.length (get (experience rd) []) in
        if (4 <=? experience_count)%nat then score + 0.5 else score
    | None => 5.0
    end in
  let score :=
    match present semantic_truthy semantic_analysis with
    | Some sa =>
        let ai_relevance := get (experience_relevance_score sa) 5 in
        (score + ai_relevance) / 2
    | None => score
    end in
  clamp score.

Definition _calculate_activity_score (github_data : option GithubData) : float :=
  match present github_truthy github_data with
  | None => 5.0
  | Some gd =>
      let commits := get (commits_12_months gd) 0 in
      let commits_score :=
        if ge commits 500 then 4.0
        else if ge commits 200 then 3.0
        else if ge commits 50 then 2.0
        else 1.0 in
      let repos := get (public_repos gd) 0 in
      let repos_score :=
        if ge repos 30 then 3.0
        else if ge repos 15 then 2.0
        else if ge repos 5 then 1.5
        else 1.0 in
      let readme_score := get (readme_complexity_score gd) 5 / 5 in
      let streak := get (contribution_streak gd) 0 in
      let streak_score := py_min 1.0 (streak / 30) in
      let total := commits_score + repos_score + readme_score + streak_score in
      clamp total
  end.

Definition penalty (flag : Flag) : float :=
  let severity := get (severity flag) ("LOW" : str) in
  if str_eqb severity "HIGH" then 3.0
  else if str_eqb severity "MEDIUM" then 1.5
  else 0.5.

Definition _calculate_credibility (validation_flags : option (list Flag)) : float :=
  let score := 10.0 in
  match present truthy validation_flags with
  | None => score
  | Some flags =>
      let score := fold_left (fun score flag => score - penalty flag) flags score in
      clamp score
  end.

Definition _interpret_score (score : float) : Scorer.Interpretation :=
  if ge score 8.5 then
    Scorer.mkInterpretation "EXCELLENT" "STRONG_YES"
      "Outstanding candidate with strong technical alignment"
  else if ge score 7.0 then
    Scorer.mkInterpretation "GOOD" "YES" "Well-qualified candidate worth interviewing"
  else if ge score 5.5 then
    Scorer.mkInterpretation "FAIR" "MAYBE"
      "Candidate has potential but may lack some requirements"
  else if ge score 4.0 then
    Scorer.mkInterpretation "BELOW_AVERAGE" "PROBABLY_NO"
      "Significant gaps in qualifications for this role"
  else
    Scorer.mkInterpretation "POOR" "NO" "Candidate does not meet minimum requirements".

Record Breakdown := mkBreakdown {
  technical_match : float;
  experience_depth : float;
  activity_score : float;
  credibility : float
}.

Record ScoreResult := mkScoreResult {
  total_score : float;
  breakdown : Breakdown;
  weights : Weights;
  interpretation : Scorer.Interpretation
}.

Definition calculate_score (github_data : option GithubData)
    (resume_data : option ResumeData)
    (semantic_analysis : option SemanticAnalysis)
    (validation_flags : option (list Flag)) : ScoreResult :=
  let technical_score := _calculate_technical_match resume_data semantic_analysis in
  let experience_score := _calculate_experience_depth resume_data semantic_analysis in
  let activity_score := _calculate_activity_score github_data in
  let credibility_score := _calculate_credibility validation_flags in
  let total_score :=
    technical_score * w_technical_match WEIGHTS
    + experience_score * w_experience_depth WEIGHTS
    + activity_score * w_activity_score WEIGHTS
    + credibility_score * w_credibility WEIGHTS in
  let total_score := py_round1 total_score in
  mkScoreResult
    total_score
    (mkBreakdown (py_round1 technical_score) (py_round1 experience_score)
                 (py_round1 activity_score) (py_round1 credibility_score))
    WEIGHTS
    (_interpret_score total_score).

(** The same formula on the four entries of a returned breakdown. *)
Definition total_from_breakdown (b : Breakdown) : float :=
  py_round1 (technical_match b * w_technical_match WEIGHTS
             + experience_depth b * w_experience_depth WEIGHTS
             + activity_score b * w_activity_score WEIGHTS
             + credibility b * w_credibility WEIGHTS).

(** The formula on the four entries of a breakdown in exact arithmetic,
    rounded to one decimal. *)
Definition exact_total (b : Breakdown) : float :=
  tenths (round_half_even
            ((0.40 * value (technical_match b) + 0.25 * value (experience_depth b)
              + 0.20 * value (activity_score b) + 0.15 * value (credibility b))
             * 10)%Q).

(** The number is 0, 10 or strictly between them. *)
Definition in_0_10 (s : float) : bool :=
  (ltb 0 s && ltb s 10) || eqb s 0 || eqb s 10.

End Scorer64.

(** ** [ReportGenerator]: the verified skills

    [app/agents/architect/report_generator.py], the method
    [_extract_verified_skills]. *)

Module ReportGenerator.

Open Scope Q_scope.

Record VerifiedSkill := mkVerifiedSkill {
  skill : str;
  confidence : Q;
  evidence : str
}.

(** [round(x, 2)] *)
Definition round2 (x : Q) : Q := inject_Z (round_half_even (x * 100)) / 100.

(** [s.title()] on ASCII: a letter after a letter in lower case, any other
    letter in upper case. *)
Fixpoint title_from (after_letter : bool) (s : str) : str :=
  match s with
  | [] => []
  | c :: s' =>
      if is_alpha c
      then (if after_letter then lower_char c
            else if is_lower c then ascii_of_nat (code c - 32) else c)
           :: title_from true s'
      else c :: title_from false s'
  end.

Definition title (s : str) : str := title_from false s.

(** [sep.join(parts)] *)
Fixpoint join (sep : str) (parts : list str) : str :=
  match parts with
  | [] => []
  | [p] => p
  | p :: rest => (p ++ sep ++ join sep rest)%list
  end.

Definition resume_skills_of (resume_data : option ResumeData) : list str :=
  match present resume_truthy resume_data with
  | Some rd =>
      fold_left (fun acc sk => Validator.set_add (lower (keyword sk)) acc)
                (get (skill_keywords rd) []) []
  | None => []
  end.

Definition github_languages_of (github_data : option Validator.GithubProfile)
    : list str :=
  match present Validator.profile_truthy github_data with
  | Some gd =>
      fold_left (fun acc l => Validator.set_add (Validator.language_name l) acc)
                (get (Validator.top_languages gd) []) []
  | None => []
  end.

Definition ai_matching_of (semantic_analysis : option SemanticAnalysis)
    : list str :=
  match present semantic_truthy semantic_analysis with
  | Some sa =>
      fold_left (fun acc sk => Validator.set_add (lower sk) acc)
                (get (key_matching_skills sa) []) []
  | None => []
  end.

(** The body of the loop over the skills of the facts record. *)
Definition verify (github_languages ai_matching : list str) (sk : str)
    : VerifiedSkill :=
  let skill_normalized := lower sk in
  let on_github :=
    existsb (fun gl => is_infix skill_normalized (lower gl)) github_languages in
  let by_ai :=
    existsb (fun am => is_infix skill_normalized (lower am)) ai_matching in
  let confidence := 0.5 in
  let confidence := if on_github then confidence + 0.3 else confidence in
  let confidence := if by_ai then confidence + 0.2 else confidence in
  let evidence_sources :=
    ((if on_github then [("GitHub repos" : str)] else [])
     ++ (if by_ai then [("AI verified" : str)] else []))%list in
  let evidence :=
    if truthy evidence_sources
    then (("Resume" : str) ++ (", " : str) ++ join ", " evidence_sources)%list
    else ("Resume" : str) in
  mkVerifiedSkill (title sk) (round2 (py_min 1.0 confidence)) evidence.

(** [verified_skills.sort(key=confidence, reverse=True)]: a stable sort. *)
Fixpoint insert_by_confidence (x : VerifiedSkill) (l : list VerifiedSkill)
    : list VerifiedSkill :=
  match l with
  | [] => [x]
  | y :: l' =>
      if negb (Qle_bool (confidence y) (confidence x))
      then y :: insert_by_confidence x l'
      else x :: l
  end.

Definition sort_by_confidence (l : list VerifiedSkill) : list VerifiedSkill :=
  fold_right insert_by_confidence [] l.

(** The skills of the facts record are a Python [set]; as for the sets of
    the validator, the list keeps the order of insertion, which Python
    does not promise. *)
Definition _extract_verified_skills (github_data : option Validator.GithubProfile)
    (resume_data : option ResumeData)
    (semantic_analysis : option SemanticAnalysis) : list VerifiedSkill :=
  let resume_skills := resume_skills_of resume_data in
  let github_languages := github_languages_of github_data in
  let ai_matching := ai_matching_of semantic_analysis in
  let verified_skills := map (verify github_languages ai_matching) resume_skills in
  upto 20 (sort_by_confidence verified_skills).

End ReportGenerator.

(** ** The formulas of the specification

    These definitions follow the words of the specification, not the code;
    the theorems relate them to the embedding above. *)

Module Spec.

Open Scope Q_scope.

Definition has_severity (level : str) (flag : Flag) : bool :=
  match severity flag with
  | Some sv => str_eqb sv level
  | None => false
  end.

Definition is_high : Flag -> bool := has_severity "HIGH".
Definition is_medium : Flag -> bool := has_severity "MEDIUM".
Definition is_other (flag : Flag) : bool := negb (is_high flag || is_medium flag).

Definition number_of (p : Flag -> bool) (flags : list Flag) : Q :=
  inject_Z (Z.of_nat (List.length (filter p flags))).

Definition clamp (x lo hi : Q) : Q := Qmax lo (Qmin hi x).

(** 1 for a flag that is counted, 0 for one that is not. *)
Definition indicator (b : bool) : Q := if b then 1 else 0.

(** What one flag costs: 3.0, 1.5 or 0.5. *)
Definition cost (flag : Flag) : Q :=
  3.0 * indicator (is_high flag) + 1.5 * indicator (is_medium flag)
  + 0.5 * indicator (is_other flag).

Definition total_cost (flags : list Flag) : Q :=
  3.0 * number_of is_high flags + 1.5 * number_of is_medium flags
  + 0.5 * number_of is_other flags.

(** "start at 10; subtract 3.0 per HIGH, 1.5 per MEDIUM, 0.5 per LOW flag;
    clamp to [0,10]; round to one decimal" *)
Definition credibility_score (flags : list Flag) : Q :=
  round1
    (clamp (10 - 3.0 * number_of is_high flags
               - 1.5 * number_of is_medium flags
               - 0.5 * number_of is_other flags) 0 10).

(** "≥15→8, ≥10→7, ≥5→6, else 5" *)
Definition keyword_step (n : nat) : Q :=
  if (15 <=? n)%nat then 8
  else if (10 <=? n)%nat then 7
  else if (5 <=? n)%nat then 6
  else 5.

(** Scenario C: a facts record whose skill-keyword table is
    [{python,10},{aws,5}]. *)
Definition scenario_C : ResumeData :=
  mkResumeData None None None None None None None None None None
    (Some [mkSkillKeyword "python" 10; mkSkillKeyword "aws" 5]).

(** The name of the contact record, in the words of the specification: the
    first of the first five lines that, stripped, is not empty, holds none
    of the substrings "@", "www.", "http", ".com", and has at most four
    tokens. *)
Definition looks_like_contact_info (line : str) : bool :=
  is_infix "@" line || is_infix "www." line || is_infix "http" line
  || is_infix ".com" line.

Definition name_candidate (line : str) : bool :=
  truthy line && negb (looks_like_contact_info line)
  && (List.length (split_ws line) <=? 4)%nat.

Definition contact_name (text : str) : option str :=
  find name_candidate (map strip (upto 5 (split_on "010" text))).

(** A document that opens with the name of the candidate. *)
Definition plain_name_text : str :=
  (("John Smith" : str) ++ ["010"%char] ++ ("john.smith@example.org" : str))%list.

(** Scenario A: a facts record whose summary claims eight years of FastAPI. *)
Definition scenario_A : ResumeData :=
  mkResumeData None None None None None None None None
    (Some ("8 years of experience with FastAPI" : str)) None None.

(** The first entry of a table whose name occurs in the matched phrase. *)
Definition first_entry_in (tech : str) (table : list (str * Z))
    : option (str * Z) :=
  find (fun entry => is_infix (fst entry) tech) table.

Definition keys_of (flag : Flag) : list str := map fst (evidence flag).

End Spec.

(** The experience section of a text, when it has one that is not empty. *)
Definition experience_section (text : str) : option str :=
  ResumeParser.section_or_nothing (ResumeParser._extract_section text "experience").

Module SpecFacts.





(** The fields of an experience entry that are copied from the text. *)
Definition copied_fields (e : Experience)
    : option str * option (str * str) * option str * option str :=
  (raw_text e, dates e, title e, company e).

(** Both dates of the entry are read by a format: no reading of the clock
    enters its duration. *)
Definition dates_fixed (e : Experience) : bool :=
  match dates e with
  | Some (start, end_) =>
      is_some (ResumeParser.try_formats (strip start) ResumeParser.formats)
      && negb (ResumeParser.present_like end_)
      && is_some (ResumeParser.try_formats (strip end_) ResumeParser.formats)
  | None => false
  end.



(** Two positions, 300 characters apart. *)
Definition two_jobs_text : str :=
  (("Experience" : str) ++ ["010"%char] ++ ("2010 - 2011" : str)
   ++ repeat "x"%char 300 ++ ("2012 - 2013" : str))%list.

(** A position that is still held. *)
Definition current_job_text : str :=
  (("Experience" : str) ++ ["010"%char] ++ ("Jan 2020 - present" : str))%list.

Definition january_2024 : Clock := fun _ => mkDate 2024 1 15 0.
Definition june_2024 : Clock := fun _ => mkDate 2024 6 15 0.

(** What two entries of two runs on the same text have in common. *)
Definition same_but_clock (e1 e2 : Experience) : Prop :=
  copied_fields e1 = copied_fields e2
  /\ if dates_fixed e1 then duration_months e1 = duration_months e2 else True.

End SpecFacts.

(** ** Sample inputs *)

Module Examples.

Definition high_flag : Flag :=
  mkFlag (Some ("EXPERIENCE_MISMATCH" : str)) (Some ("HIGH" : str)) None [].

Definition medium_flag : Flag :=
  mkFlag (Some ("TITLE_MISMATCH" : str)) (Some ("MEDIUM" : str)) None [].

Definition low_flag : Flag :=
  mkFlag (Some ("LOW_GITHUB_ACTIVITY" : str)) (Some ("LOW" : str)) None [].

Definition titled (t : str) : Experience :=
  mkExperience None None None (Some t) None.

(** A facts record and a network profile that share the title of one
    position, in different case. *)
Definition titled_resume : ResumeData :=
  mkResumeData None None None None
    (Some [titled "Software Engineer"; titled "Team Lead"; titled "Intern"])
    None None None None None None.

Definition titled_profile : LinkedinData :=
  mkLinkedinData None
    (Some [mkLinkedinExperience (Some ("CTO" : str));
           mkLinkedinExperience (Some ("team lead" : str));
           mkLinkedinExperience (Some ("Founder" : str));
           mkLinkedinExperience (Some ("Advisor" : str))]).

(** A facts record that claims Python and Rust, and a profile of four
    public repositories without languages. *)
Definition polyglot_resume : ResumeData :=
  mkResumeData None None None None None None None None None None
    (Some [mkSkillKeyword "python" 3; mkSkillKeyword "rust" 1]).

Definition small_profile : Validator.GithubProfile :=
  Validator.mkGithubProfile (mkGithubData None (Some 4%Q) None None) None.

(** A facts record that holds a total and a list of positions. *)
Definition resume_with (years : Q) (positions : list Experience) : ResumeData :=
  mkResumeData None None None None (Some positions) None None None None
    (Some years) None.

(** The place of a rating among the five ratings of the scorer. *)
Definition rank (rating : str) : nat :=
  if str_eqb rating "EXCELLENT" then 4
  else if str_eqb rating "GOOD" then 3
  else if str_eqb rating "FAIR" then 2
  else if str_eqb rating "BELOW_AVERAGE" then 1
  else 0.

End Examples.

(** ** What a flag reports *)

Module FlagShape.

(** The technology that a flag names in its evidence. *)
Definition reported_technology (f : Flag) : option str :=
  match ResumeParser.lookup "technology" (evidence f) with
  | Some (EvStr k) => Some k
  | _ => None
  end.

(** The entries of the table of release years that come after an entry
    whose name is part of theirs. *)
Definition shadowed_entries : list str :=
  strs ["react native"; "vue.js"; "tailwindcss"; "golang"].

(** The flag names a technology, and not a shadowed one. *)
Definition names_live_entry (f : Flag) : Prop :=
  match reported_technology f with
  | Some k => existsb (str_eqb k) shadowed_entries = false
  | None => False
  end.

(** The entry is shadowed, or a claim of exactly its name reaches it. *)
Definition shadowed_or_reached (entry : str * Z) : bool :=
  existsb (str_eqb (fst entry)) shadowed_entries
  || match Spec.first_entry_in (fst entry) Validator.TECH_RELEASE_DATES with
     | Some (k, y) => str_eqb k (fst entry) && (y =? snd entry)%Z
     | None => false
     end.

(** A flag of the age check: it names an entry of the table, and the years
    it reports exceed the age of that entry by more than one. *)
Definition age_flag (current_year : Z) (f : Flag) : Prop :=
  exists (years release_year : Z) (known_tech : str),
    In (known_tech, release_year) Validator.TECH_RELEASE_DATES
    /\ f = Validator.mismatch_flag years (current_year - release_year)
                                   known_tech release_year
    /\ (current_year - release_year + 1 < years)%Z.

Definition severities : list str := strs ["LOW"; "MEDIUM"; "HIGH"].

Definition flag_types : list str :=
  strs ["EXPERIENCE_MISMATCH"; "EXCESSIVE_EXPERIENCE"; "SKILL_NOT_VERIFIED";
        "LOW_GITHUB_ACTIVITY"; "TITLE_MISMATCH"].

(** A flag with its three keys, a known type and a known severity. *)
Definition complete (f : Flag) : Prop :=
  (exists t, type f = Some t /\ In t flag_types)
  /\ (exists sv, severity f = Some sv /\ In sv severities)
  /\ (exists d, description f = Some d).

(** A flag of the skills check: it names a major language that the
    profile lists neither as it is nor with "pp" for "++". *)
Definition unverified_skill (github_languages : list str) (f : Flag) : Prop :=
  exists skill : str,
    f = Validator.skill_flag skill github_languages
    /\ In skill Validator.major_language_claims
    /\ ~ In skill github_languages
    /\ ~ In (Validator.replace_plus_plus skill) github_languages.

Definition has_type (t : str) (f : Flag) : bool :=
  match type f with
  | Some t' => str_eqb t' t
  | None => false
  end.

End FlagShape.

(** The experience list of an optional network profile. *)
Definition li_experience_of (linkedin_data : option LinkedinData)
    : option (list LinkedinExperience) :=
  match linkedin_data with
  | Some ld => li_experience ld
  | None => None
  end.

(** No string occurs twice in the list. *)
Fixpoint nodupb (l : list str) : bool :=
  match l with
  | [] => true
  | x :: l' => negb (existsb (str_eqb x) l') && nodupb l'
  end.

(** The order of the skill-keyword table: the count does not grow. *)
Definition count_ge (a b : SkillKeyword) : Prop := (count b <= count a)%nat.

(** The order of the verified skills: the confidence does not grow. *)
Definition confidence_ge (a b : ReportGenerator.VerifiedSkill) : Prop :=
  (ReportGenerator.confidence b <= ReportGenerator.confidence a)%Q.

(** One of the four levels of confidence. *)
Definition confidence_level (q : Q) : Prop :=
  (q == 0.5 \/ q == 0.7 \/ q == 0.8 \/ q == 1)%Q.

(** ** [ResumeParser] by interpreter version

    [_extract_section] compiles ["|".join(SECTION_PATTERNS.values())], a
    pattern that carries the flag [(?i)] in the middle.  CPython accepts
    such a pattern up to version 3.10 and applies the flag to the whole
    pattern: this is the reading of [ResumeParser] above.  From version
    3.11 on [re] refuses it: [re.search] raises [re.error], whatever the
    string it is given.  Nothing in the repository fixes the version.  This
    module is the parser with the version as a parameter and the exception
    as an outcome; the other patterns of the parser carry their flag at the
    start and compile under every version. *)

Module ByVersion.

Import Re.

Inductive Interpreter : Type :=
  | before_3_11
  | from_3_11.

(** What a call comes to: a value, or the exception [re.error]. *)
Inductive Outcome (A : Type) : Type :=
  | Returned (a : A)
  | Raised.

Arguments Returned {A} a.
Arguments Raised {A}.

Definition and_then {A B : Type} (o : Outcome A) (f : A -> Outcome B)
    : Outcome B :=
  match o with
  | Returned a => f a
  | Raised => Raised
  end.

(** [re.search(all_patterns, s)] *)
Definition search_all_patterns (v : Interpreter) (s : str)
    : Outcome (option Match) :=
  match v with
  | before_3_11 => Returned (search ResumeParser.all_patterns s)
  | from_3_11 => Raised
  end.

Definition _extract_section (v : Interpreter) (text : str) (section_name : str)
    : Outcome (option str) :=
  match ResumeParser.lookup section_name ResumeParser.SECTION_PATTERNS with
  | None => Returned None
  | Some pattern =>
      match search pattern text with
      | None => Returned None
      | Some m =>
          let start := Z.of_nat (m_end m) in
          let len := Z.of_nat (List.length text) in
          and_then (search_all_patterns v (slice start len text))
            (fun next_section =>
               let end_ :=
                 match next_section with
                 | Some nxt => start + Z.of_nat (m_start nxt)
                 | None => Z.min (start + 2000) len
                 end in
               Returned (Some (strip (slice start end_ text))))
      end
  end.

Definition _extract_experience (v : Interpreter) (text : str)
    : M (Outcome (list Experience)) :=
  match _extract_section v text "experience" with
  | Raised => ret Raised
  | Returned exp_section =>
      match ResumeParser.section_or_nothing exp_section with
      | None => ret (Returned [])
      | Some exp_section =>
          experiences <-
            ResumeParser.entries exp_section
              (ResumeParser.first_matching ResumeParser.DATE_PATTERNS exp_section) ;;
          ret (Returned (upto 10 experiences))
      end
  end.

Definition _extract_education (v : Interpreter) (text : str)
    : Outcome (list Education) :=
  and_then (_extract_section v text "education")
    (fun edu_section =>
       match ResumeParser.section_or_nothing edu_section with
       | None => Returned []
       | Some edu_section =>
           Returned
             (flat_map
                (fun pattern =>
                   map (fun mention => mkEducation mention (upto 500 edu_section))
                       (findall1 pattern edu_section))
                ResumeParser.degree_patterns)
       end).

Definition _extract_skills (v : Interpreter) (text : str) : Outcome (list str) :=
  and_then (_extract_section v text "skills")
    (fun skills_section =>
       match ResumeParser.section_or_nothing skills_section with
       | None => Returned []
       | Some skills_section =>
           let cleaned :=
             filter (fun skill =>
                       truthy skill && (1 <? List.length skill)%nat
                       && (List.length skill <? 50)%nat)
                    (map strip (split ResumeParser.skill_delimiter skills_section)) in
           Returned (upto 30 cleaned)
       end).

Definition _extract_certifications (v : Interpreter) (text : str)
    : Outcome (list str) :=
  and_then (_extract_section v text "certifications")
    (fun cert_section =>
       match ResumeParser.section_or_nothing cert_section with
       | None => Returned []
       | Some cert_section =>
           let cleaned :=
             filter (fun cert => truthy cert && (5 <? List.length cert)%nat)
                    (map strip (split ResumeParser.cert_delimiter cert_section)) in
           Returned (upto 10 cleaned)
       end).

Definition _extract_summary (v : Interpreter) (text : str)
    : Outcome (option str) :=
  and_then (_extract_section v text "summary")
    (fun summary =>
       match ResumeParser.section_or_nothing summary with
       | Some summary => Returned (Some (upto 1000 summary))
       | None => Returned None
       end).

(** [parse], after the text of the document has been read.  The entries
    of the mapping are computed in the order of the source; the first
    exception ends the call. *)
Definition parse (v : Interpreter) (path : str) (text : str)
    : M (Outcome ResumeData) :=
  stamp <- now ;;                       (* datetime.utcnow() *)
  let contact := ResumeParser._extract_contact text in
  experiences <- _extract_experience v text ;;
  ret (and_then experiences (fun experiences =>
       and_then (_extract_education v text) (fun education =>
       and_then (_extract_skills v text) (fun skills =>
       and_then (_extract_certifications v text) (fun certifications =>
       and_then (_extract_summary v text) (fun summary =>
       Returned
         (mkResumeData
            (Some path)
            (Some stamp)
            (Some (List.length text))
            (Some contact)
            (Some experiences)
            (Some education)
            (Some skills)
            (Some certifications)
            summary
            (Some (ResumeParser._calculate_total_experience experiences))
            (Some (ResumeParser._extract_skill_keywords text))))))))).




(** Two records that differ in the time stamp at most. *)
Definition same_but_timestamp (r1 r2 : ResumeData) : Prop :=
  file_path r1 = file_path r2
  /\ raw_text_length r1 = raw_text_length r2
  /\ contact r1 = contact r2
  /\ experience r1 = experience r2
  /\ education r1 = education r2
  /\ skills r1 = skills r2
  /\ certifications r1 = certifications r2
  /\ summary r1 = summary r2
  /\ total_years_experience r1 = total_years_experience r2
  /\ skill_keywords r1 = skill_keywords r2.


(** What two runs on earlier versions have in common: all but the time
    stamp, the durations that read the clock and their total. *)
Definition same_but_clock (r1 r2 : ResumeData) : Prop :=
  file_path r1 = file_path r2
  /\ raw_text_length r1 = raw_text_length r2
  /\ contact r1 = contact r2
  /\ education r1 = education r2
  /\ skills r1 = skills r2
  /\ certifications r1 = certifications r2
  /\ summary r1 = summary r2
  /\ skill_keywords r1 = skill_keywords r2
  /\ exists exps1 exps2 : list Experience,
       experience r1 = Some exps1 /\ experience r2 = Some exps2
       /\ Forall2 SpecFacts.same_but_clock exps1 exps2.

End ByVersion.

(** ** Inputs of the examples *)

Module Inputs.

Import PrimFloat.



Definition position : Experience := mkExperience None None None None None.

(** Facts with 3.5 years over four positions, and an assessment of 7 and 6
    with three matching skills. *)
Definition four_positions : Scorer64.ResumeData :=
  Scorer64.mkResumeData (Some 3.5%float)
    (Some [position; position; position; position]) None false.

Definition fair_assessment : Scorer64.SemanticAnalysis :=
  Scorer64.mkSemanticAnalysis (Some 7%float) (Some 6%float)
    (Some (strs ["Python"; "AWS"; "Docker"])) None false.

(** A profile that holds [commits_12_months: 0] only. *)
Definition idle_profile : Scorer64.GithubData :=
  Scorer64.mkGithubData (Some 0%float) None None None false.

(** A profile with [readme_complexity_score: 0], facts with 7 years and a
    flag of severity HIGH. *)
Definition bare_profile : Scorer64.GithubData :=
  Scorer64.mkGithubData None None (Some 0%float) None false.

Definition seven_years : Scorer64.ResumeData :=
  Scorer64.mkResumeData (Some 7%float) None None false.

Definition one_high_flag : list Flag :=
  [mkFlag None (Some ("HIGH" : str)) None []].

End Inputs.

(** * Properties *)

(** ** Rounding *)

Section Rounding.

Open Scope Q_scope.

Lemma round_half_even_comp (x y : Q) :
  x == y -> round_half_even x = round_half_even y.
Proof.
  intros E. unfold round_half_even.
  rewrite (Qfloor_comp _ _ E).
  assert (C : (x - inject_Z (Qfloor y) ?= 1 # 2) = (y - inject_Z (Qfloor y) ?= 1 # 2))
    by (apply Qcompare_comp; [rewrite E|]; reflexivity).
  now rewrite C.
Qed.

(** Equal numbers round to the same term. *)
Lemma round1_comp (x y : Q) : x == y -> round1 x = round1 y.
Proof.
  intros E. unfold round1.
  rewrite (round_half_even_comp (x * 10) (y * 10)); [reflexivity|].
  now rewrite E.
Qed.

Lemma round_half_even_Z (n : Z) : round_half_even (inject_Z n) = n.
Proof.
  unfold round_half_even. rewrite Qfloor_Z.
  destruct (Qcompare_spec (inject_Z n - inject_Z n) (1 # 2)) as [H|H|H];
    [exfalso; lra | reflexivity | exfalso; lra].
Qed.

Lemma round_half_even_bounds (x : Q) :
  (Qfloor x <= round_half_even x <= Qfloor x + 1)%Z.
Proof.
  unfold round_half_even.
  destruct (x - inject_Z (Qfloor x) ?= 1 # 2); [destruct (Z.even _)| |]; lia.
Qed.

Lemma round_half_even_mono (x y : Q) :
  x <= y -> (round_half_even x <= round_half_even y)%Z.
Proof.
  intros L.
  pose proof (Qfloor_resp_le _ _ L) as F.
  destruct (Z.eq_dec (Qfloor x) (Qfloor y)) as [E|N].
  - unfold round_half_even. rewrite E.
    destruct (Qcompare_spec (x - inject_Z (Qfloor y)) (1 # 2)) as [Hx|Hx|Hx];
      destruct (Qcompare_spec (y - inject_Z (Qfloor y)) (1 # 2)) as [Hy|Hy|Hy];
      try destruct (Z.even (Qfloor y)); try lia; exfalso; lra.
  - pose proof (round_half_even_bounds x). pose proof (round_half_even_bounds y).
    lia.
Qed.

Lemma round1_mono (x y : Q) : x <= y -> round1 x <= round1 y.
Proof.
  intros L. unfold round1.
  assert (M : (round_half_even (x * 10) <= round_half_even (y * 10))%Z)
    by (apply round_half_even_mono; lra).
  rewrite Zle_Qle in M.
  unfold Qdiv. apply Qmult_le_compat_r; [exact M | discriminate].
Qed.

(** A number of tenths is its own rounding. *)
Lemma round1_tenths (n : Z) : round1 (inject_Z n / 10) == inject_Z n / 10.
Proof.
  unfold round1.
  rewrite (round_half_even_comp (inject_Z n / 10 * 10) (inject_Z n)) by (field).
  now rewrite round_half_even_Z.
Qed.

Lemma round1_nonneg (x : Q) : 0 <= x -> 0 <= round1 x.
Proof.
  intros L.
  assert (E : 0 == round1 (inject_Z 0 / 10)) by (rewrite round1_tenths; reflexivity).
  rewrite E. apply round1_mono.
  assert (Z0 : inject_Z 0 / 10 == 0) by reflexivity.
  rewrite Z0. exact L.
Qed.

Lemma round1_le_10 (x : Q) : x <= 10 -> round1 x <= 10.
Proof.
  intros U.
  assert (E : 10 == round1 (inject_Z 100 / 10)) by (rewrite round1_tenths; reflexivity).
  rewrite E. apply round1_mono.
  assert (Z10 : inject_Z 100 / 10 == 10) by reflexivity.
  rewrite Z10. exact U.
Qed.

Lemma round1_range (x : Q) : 0 <= x <= 10 -> 0 <= round1 x <= 10.
Proof.
  intros [L U]. split; [now apply round1_nonneg | now apply round1_le_10].
Qed.

End Rounding.

(** ** Credibility *)

Section Credibility.

Open Scope Q_scope.

Lemma str_eqb_eq (a b : str) : str_eqb a b = true <-> a = b.
Proof.
  revert b. induction a as [|x a IH]; intros [|y b]; simpl; split; intros H;
    try reflexivity; try discriminate.
  - apply andb_true_iff in H. destruct H as [Hc Hs].
    apply Ascii.eqb_eq in Hc. apply IH in Hs. now subst.
  - injection H as -> ->. apply andb_true_iff. split.
    + apply Ascii.eqb_refl.
    + now apply IH.
Qed.

Lemma number_of_cons (p : Flag -> bool) (f : Flag) (l : list Flag) :
  Spec.number_of p (f :: l) == Spec.indicator (p f) + Spec.number_of p l.
Proof.
  unfold Spec.number_of, Spec.indicator. cbn [filter].
  destruct (p f); cbn [List.length].
  - rewrite Nat2Z.inj_succ, <- Z.add_1_l, inject_Z_plus. reflexivity.
  - ring.
Qed.

Lemma number_of_nonneg (p : Flag -> bool) (l : list Flag) :
  0 <= Spec.number_of p l.
Proof.
  unfold Spec.number_of. rewrite <- (Zle_Qle 0). lia.
Qed.

Lemma total_cost_cons (f : Flag) (l : list Flag) :
  Spec.total_cost (f :: l) == Spec.cost f + Spec.total_cost l.
Proof.
  unfold Spec.total_cost, Spec.cost. rewrite !number_of_cons. ring.
Qed.

Lemma total_cost_nonneg (l : list Flag) : 0 <= Spec.total_cost l.
Proof.
  unfold Spec.total_cost.
  pose proof (number_of_nonneg Spec.is_high l).
  pose proof (number_of_nonneg Spec.is_medium l).
  pose proof (number_of_nonneg Spec.is_other l).
  lra.
Qed.

(** The severity of a flag decides its cost the same way in the validator,
    in the scorer and in the specification. *)
Lemma severity_cases (f : Flag) :
  (Spec.is_high f = true /\ Spec.is_medium f = false /\ severity f = Some Validator.SEVERITY_HIGH)
  \/ (Spec.is_high f = false /\ Spec.is_medium f = true /\ severity f = Some Validator.SEVERITY_MEDIUM)
  \/ (Spec.is_high f = false /\ Spec.is_medium f = false).
Proof.
  unfold Spec.is_high, Spec.is_medium, Spec.has_severity.
  destruct (severity f) as [sv|]; [|right; right; split; reflexivity].
  destruct (str_eqb sv "HIGH") eqn:H.
  - apply str_eqb_eq in H. subst sv. left. repeat split.
  - destruct (str_eqb sv "MEDIUM") eqn:Md.
    + apply str_eqb_eq in Md. subst sv. right; left. repeat split.
    + right; right. split; reflexivity.
Qed.

Lemma deduction_cost (f : Flag) : Validator.deduction f == Spec.cost f.
Proof.
  unfold Validator.deduction, Spec.cost, Spec.is_other.
  destruct (severity_cases f) as [(H & Md & S)|[(H & Md & S)|(H & Md)]];
    rewrite H, Md; try rewrite S; try reflexivity.
  unfold Spec.is_high, Spec.is_medium, Spec.has_severity in H, Md.
  unfold get. destruct (severity f) as [sv|].
  - unfold Validator.SEVERITY_HIGH, Validator.SEVERITY_MEDIUM.
    rewrite H, Md. reflexivity.
  - reflexivity.
Qed.

Lemma penalty_cost (f : Flag) : Scorer.penalty f == Spec.cost f.
Proof.
  unfold Scorer.penalty, Spec.cost, Spec.is_other.
  destruct (severity_cases f) as [(H & Md & S)|[(H & Md & S)|(H & Md)]];
    rewrite H, Md; try rewrite S; try reflexivity.
  unfold Spec.is_high, Spec.is_medium, Spec.has_severity in H, Md.
  unfold get. destruct (severity f) as [sv|].
  - rewrite H, Md. reflexivity.
  - reflexivity.
Qed.

(** The loop of the validator adds the costs up. *)
Lemma deductions_total (flags : list Flag) (acc : Q) :
  fold_left (fun acc flag => acc + Validator.deduction flag) flags acc
  == acc + Spec.total_cost flags.
Proof.
  revert acc. induction flags as [|f flags IH]; intros acc; simpl.
  - unfold Spec.total_cost, Spec.number_of. simpl. ring.
  - rewrite IH, total_cost_cons, deduction_cost. ring.
Qed.

(** The loop of the scorer takes them off. *)
Lemma penalties_total (flags : list Flag) (score : Q) :
  fold_left (fun score flag => score - Scorer.penalty flag) flags score
  == score - Spec.total_cost flags.
Proof.
  revert score. induction flags as [|f flags IH]; intros score; simpl.
  - unfold Spec.total_cost, Spec.number_of. simpl. ring.
  - rewrite IH, total_cost_cons, penalty_cost. ring.
Qed.

(** C1.  For every list of flags, [Validator.get_credibility_score] is
    10 minus 3.0 for each HIGH flag, 1.5 for each MEDIUM flag and 0.5 for
    each other flag, clamped to [0, 10] and rounded to one decimal; for the
    empty list it is 10.0. *)
Theorem get_credibility_score_formula :
  (forall flags : list Flag,
     Validator.get_credibility_score flags == Spec.credibility_score flags)
  /\ Validator.get_credibility_score [] == 10.
Proof.
  split; [|reflexivity].
  intros flags. unfold Validator.get_credibility_score, Spec.credibility_score.
  destruct flags as [|f flags]; [reflexivity|].
  cbv beta iota delta [truthy negb].
  match goal with
  | |- round1 ?a == round1 ?b => rewrite (round1_comp a b); [reflexivity|]
  end.
  fold (Spec.total_cost (f :: flags)).
  pose proof (total_cost_nonneg (f :: flags)) as NN.
  set (tc := Spec.total_cost (f :: flags)) in *.
  assert (E : 10 - 3.0 * Spec.number_of Spec.is_high (f :: flags)
              - 1.5 * Spec.number_of Spec.is_medium (f :: flags)
              - 0.5 * Spec.number_of Spec.is_other (f :: flags) == 10 - tc)
    by (unfold tc, Spec.total_cost; ring).
  unfold Spec.clamp. rewrite E.
  rewrite (Q.min_r 10 (10 - tc)) by lra.
  unfold py_max. rewrite deductions_total. fold tc.
  assert (E2 : 10 - (0 + tc) == 10 - tc) by ring.
  now rewrite E2.
Qed.

Lemma scorer_clamp_range (x : Q) : 0 <= Scorer.clamp x <= 10.
Proof.
  unfold Scorer.clamp, py_max, py_min. split.
  - apply Q.le_max_l.
  - apply Q.max_lub; [discriminate | apply Q.le_min_l].
Qed.

Lemma scorer_credibility_value (flags : list Flag) :
  Scorer._calculate_credibility (Some flags)
  == Qmax 0 (10 - Spec.total_cost flags).
Proof.
  unfold Scorer._calculate_credibility.
  destruct flags as [|f flags]; [reflexivity|].
  cbv beta iota delta [present truthy].
  pose proof (total_cost_nonneg (f :: flags)) as NN.
  unfold Scorer.clamp, py_max, py_min.
  rewrite penalties_total.
  rewrite (Q.min_r 10 (10.0 - Spec.total_cost (f :: flags))) by lra.
  assert (E : 10.0 - Spec.total_cost (f :: flags) == 10 - Spec.total_cost (f :: flags))
    by ring.
  now rewrite E.
Qed.

Lemma validator_credibility_value (flags : list Flag) :
  Validator.get_credibility_score flags
  = round1 (Qmax 0 (10 - Spec.total_cost flags)).
Proof.
  unfold Validator.get_credibility_score.
  destruct flags as [|f flags]; [reflexivity|].
  cbv beta iota delta [truthy negb].
  apply round1_comp. unfold py_max. rewrite deductions_total.
  assert (E : 10 - (0 + Spec.total_cost (f :: flags))
              == 10 - Spec.total_cost (f :: flags)) by ring.
  now rewrite E.
Qed.

(** C9.  For every list of flags, the credibility entry of the breakdown
    that the scorer returns (the value of [Scorer._calculate_credibility],
    rounded to one decimal) is the score that
    [Validator.get_credibility_score] gives to the same list. *)
Theorem scorer_credibility_is_validator_credibility :
  forall (github_data : option GithubData) (resume_data : option ResumeData)
         (semantic_analysis : option SemanticAnalysis) (flags : list Flag),
    Scorer.credibility
      (Scorer.breakdown
         (Scorer.calculate_score github_data resume_data semantic_analysis
                                 (Some flags)))
    == Validator.get_credibility_score flags.
Proof.
  intros g r sa flags. cbn [Scorer.calculate_score Scorer.breakdown Scorer.credibility].
  rewrite validator_credibility_value.
  rewrite (round1_comp _ _ (scorer_credibility_value flags)).
  reflexivity.
Qed.

End Credibility.

(** ** The composite score *)

Section CompositeScore.

Open Scope Q_scope.

Lemma technical_match_range (r : option ResumeData) (sa : option SemanticAnalysis) :
  0 <= Scorer._calculate_technical_match r sa <= 10.
Proof. apply scorer_clamp_range. Qed.

Lemma experience_depth_range (r : option ResumeData) (sa : option SemanticAnalysis) :
  0 <= Scorer._calculate_experience_depth r sa <= 10.
Proof. apply scorer_clamp_range. Qed.

Lemma activity_score_range (g : option GithubData) :
  0 <= Scorer._calculate_activity_score g <= 10.
Proof.
  unfold Scorer._calculate_activity_score.
  destruct (present github_truthy g); [apply scorer_clamp_range|].
  split; discriminate.
Qed.

Lemma credibility_range (f : option (list Flag)) :
  0 <= Scorer._calculate_credibility f <= 10.
Proof.
  unfold Scorer._calculate_credibility.
  destruct (present truthy f); [apply scorer_clamp_range|].
  split; discriminate.
Qed.

(** *** The composite score in binary64 *)

Section CompositeScore64.

Import PrimFloat.

#[local] Set Warnings "-inexact-float".

Lemma clamp64_range (score : PrimFloat.float) :
  Scorer64.in_0_10 (Scorer64.clamp score) = true.
Proof.
  unfold Scorer64.clamp, Scorer64.py_max, Scorer64.py_min.
  destruct (PrimFloat.ltb score 10) eqn:Below.
  - destruct (PrimFloat.ltb 0 score) eqn:Above.
    + unfold Scorer64.in_0_10. rewrite Above, Below. reflexivity.
    + reflexivity.
  - reflexivity.
Qed.

Lemma technical_match64_range (r : option Scorer64.ResumeData)
    (sa : option Scorer64.SemanticAnalysis) :
  Scorer64.in_0_10 (Scorer64._calculate_technical_match r sa) = true.
Proof. apply clamp64_range. Qed.

Lemma experience_depth64_range (r : option Scorer64.ResumeData)
    (sa : option Scorer64.SemanticAnalysis) :
  Scorer64.in_0_10 (Scorer64._calculate_experience_depth r sa) = true.
Proof. apply clamp64_range. Qed.

Lemma activity_score64_range (g : option Scorer64.GithubData) :
  Scorer64.in_0_10 (Scorer64._calculate_activity_score g) = true.
Proof.
  unfold Scorer64._calculate_activity_score.
  destruct (present Scorer64.github_truthy g); [apply clamp64_range | reflexivity].
Qed.

Lemma credibility64_range (f : option (list Flag)) :
  Scorer64.in_0_10 (Scorer64._calculate_credibility f) = true.
Proof.
  unfold Scorer64._calculate_credibility.
  destruct (present truthy f); [apply clamp64_range | reflexivity].
Qed.

(** C2, as the code has it.  For every combination of optional inputs, the
    total that [calculate_score] returns is [round(., 1)] of the sum
    technical * 0.40 + experience * 0.25 + activity * 0.20
    + credibility * 0.15, computed in binary64 from left to right, of the
    four sub-scores as the four [_calculate_*] functions return them, not
    rounded; the weights are those of [WEIGHTS] and their sum in binary64
    is 1; each sub-score is 0, 10 or between them; the breakdown holds the
    four sub-scores rounded to one decimal, and the interpretation is read
    from the rounded total. *)
Theorem calculate_score_binary64 :
  forall (github_data : option Scorer64.GithubData)
         (resume_data : option Scorer64.ResumeData)
         (semantic_analysis : option Scorer64.SemanticAnalysis)
         (validation_flags : option (list Flag)),
    let result :=
      Scorer64.calculate_score github_data resume_data semantic_analysis
                               validation_flags in
    let technical :=
      Scorer64._calculate_technical_match resume_data semantic_analysis in
    let experience :=
      Scorer64._calculate_experience_depth resume_data semantic_analysis in
    let activity := Scorer64._calculate_activity_score github_data in
    let credibility := Scorer64._calculate_credibility validation_flags in
    Scorer64.total_score result
      = Scorer64.py_round1
          (technical * 0.40 + experience * 0.25 + activity * 0.20
           + credibility * 0.15)%float
    /\ Scorer64.weights result = Scorer64.mkWeights 0.40 0.25 0.20 0.15
    /\ (0.40 + 0.25 + 0.20 + 0.15)%float = 1%float
    /\ (Scorer64.in_0_10 technical = true /\ Scorer64.in_0_10 experience = true
        /\ Scorer64.in_0_10 activity = true /\ Scorer64.in_0_10 credibility = true)
    /\ Scorer64.breakdown result
       = Scorer64.mkBreakdown
           (Scorer64.py_round1 technical) (Scorer64.py_round1 experience)
           (Scorer64.py_round1 activity) (Scorer64.py_round1 credibility)
    /\ Scorer64.interpretation result
       = Scorer64._interpret_score (Scorer64.total_score result).
Proof.
  intros g r sa f result technical experience activity credibility.
  split; [reflexivity|].
  split; [reflexivity|].
  split; [vm_compute; reflexivity|].
  split.
  { split; [apply technical_match64_range|].
    split; [apply experience_depth64_range|].
    split; [apply activity_score64_range | apply credibility64_range]. }
  split; reflexivity.
Qed.

(** C2, as it is stated, fails.  With no profile, facts of 3.5 years over
    four positions, an assessment of 7 and 6 with three matching skills and
    no flag, the sub-scores are 7.25, 6.25, 5 and 10: the result holds the
    total 7.0 and the breakdown 7.2, 6.2, 5.0, 10.0, and the formula gives
    6.9 on this breakdown, in binary64 and in exact arithmetic alike.  With
    a profile that holds [commits_12_months: 0] only, the sub-scores are 5,
    5, 3 and 10 and the breakdown holds them unchanged: the weighted sum is
    5.35 in exact arithmetic, which rounds to 5.4, and the total of the
    result is 5.3. *)
Lemma total_differs_from_formula_on_breakdown :
  let result :=
    Scorer64.calculate_score None (Some Inputs.four_positions)
                             (Some Inputs.fair_assessment) None in
  let idle := Scorer64.calculate_score (Some Inputs.idle_profile) None None None in
  (Scorer64.breakdown result
   = Scorer64.mkBreakdown 7.2%float 6.2%float 5%float 10%float
   /\ Scorer64.total_score result = 7%float
   /\ Scorer64.total_from_breakdown (Scorer64.breakdown result) = 6.9%float
   /\ Scorer64.exact_total (Scorer64.breakdown result) = 6.9%float
   /\ Scorer64.total_score result
      <> Scorer64.total_from_breakdown (Scorer64.breakdown result)
   /\ Scorer.rating (Scorer64.interpretation result) = ("GOOD" : str)
   /\ Scorer.rating
        (Scorer64._interpret_score
           (Scorer64.total_from_breakdown (Scorer64.breakdown result)))
      = ("FAIR" : str))
  /\ (Scorer64.breakdown idle
      = Scorer64.mkBreakdown 5%float 5%float 3%float 10%float
      /\ Scorer64.total_score idle = 5.3%float
      /\ Scorer64.exact_total (Scorer64.breakdown idle) = 5.4%float
      /\ Scorer64.total_score idle <> Scorer64.exact_total (Scorer64.breakdown idle)).
Proof.
  cbv zeta. split.
  - split; [vm_compute; reflexivity|].
    split; [vm_compute; reflexivity|].
    split; [vm_compute; reflexivity|].
    split; [vm_compute; reflexivity|].
    split.
    { intros E.
      apply (f_equal (fun x => PrimFloat.eqb x 7%float)) in E.
      vm_compute in E. discriminate E. }
    split; vm_compute; reflexivity.
  - split; [vm_compute; reflexivity|].
    split; [vm_compute; reflexivity|].
    split; [vm_compute; reflexivity|].
    intros E.
    apply (f_equal (fun x => PrimFloat.eqb x 5.3%float)) in E.
    vm_compute in E. discriminate E.
Qed.

(** At a tie the total follows the binary64 sum.  With a profile that
    holds [readme_complexity_score: 0], facts of 7 years and one flag of
    severity HIGH the sub-scores are 5, 8, 2 and 7; their weighted sum is
    5.45 in exact arithmetic and a little more in binary64: the total is
    5.5 and the rating FAIR. *)
Lemma total_at_a_tie :
  let result :=
    Scorer64.calculate_score (Some Inputs.bare_profile) (Some Inputs.seven_years)
                             None (Some Inputs.one_high_flag) in
  Scorer64.breakdown result
  = Scorer64.mkBreakdown 5%float 8%float 2%float 7%float
  /\ Scorer64.total_score result = 5.5%float
  /\ Scorer64.exact_total (Scorer64.breakdown result) = 5.4%float
  /\ Scorer.rating (Scorer64.interpretation result) = ("FAIR" : str).
Proof. cbv zeta. repeat split; vm_compute; reflexivity. Qed.

End CompositeScore64.

(** C7, as the code has it.  Without a semantic assessment, the technical
    match of a facts record is the step function of the number of entries
    of its skill-keyword table: 8 from 15 entries on, 7 from 10, 6 from 5,
    and 5 below (5 also for an empty record); the table
    [{python,10},{aws,5}] of two entries gives 5.0, and a table of exactly
    five entries gives 6.0. *)
Theorem technical_match_is_keyword_step :
  (forall resume_data : ResumeData,
     Scorer._calculate_technical_match (Some resume_data) None
     == if resume_truthy resume_data
        then Spec.keyword_step (List.length (get (skill_keywords resume_data) []))
        else 5)
  /\ Scorer._calculate_technical_match (Some Spec.scenario_C) None == 5
  /\ (forall n : nat,
        Spec.keyword_step n
        == if (n <? 5)%nat then 5 else if (n <? 10)%nat then 6
           else if (n <? 15)%nat then 7 else 8)
  /\ Spec.keyword_step 4 == 5 /\ Spec.keyword_step 5 == 6.
Proof.
  split; [|split; [reflexivity|split; [|split; reflexivity]]].
  - intros rd. unfold Scorer._calculate_technical_match.
    cbn [present].
    destruct (resume_truthy rd); [|reflexivity].
    unfold Spec.keyword_step, Scorer.clamp, py_max, py_min.
    destruct (15 <=? _)%nat; [reflexivity|].
    destruct (10 <=? _)%nat; [reflexivity|].
    destruct (5 <=? _)%nat; reflexivity.
  - intros n. unfold Spec.keyword_step.
    destruct (Nat.leb_spec 15 n); destruct (Nat.ltb_spec n 5);
      destruct (Nat.leb_spec 10 n); destruct (Nat.ltb_spec n 10);
      destruct (Nat.leb_spec 5 n); destruct (Nat.ltb_spec n 15);
      try lia; reflexivity.
Qed.

(** C7, as it is stated, fails: the table [{python,10},{aws,5}] has two
    entries, and the technical match is 5.0, not 6.0. *)
Lemma scenario_C_is_not_6 :
  skill_keywords Spec.scenario_C
    = Some [mkSkillKeyword "python" 10; mkSkillKeyword "aws" 5]
  /\ ~ Scorer._calculate_technical_match (Some Spec.scenario_C) None == 6.
Proof.
  split; [reflexivity|]. intros H. vm_compute in H. discriminate.
Qed.

End CompositeScore.

(** ** The name of the contact record *)

Section ContactName.

(** C5, at a document that opens with a plain name.  The specification
    takes the first line, "John Smith"; the filter of the code is a
    character class, the line holds the letters o, h, m and t of that
    class, and no name is extracted. *)
Theorem extract_contact_rejects_plain_name :
  Spec.contact_name Spec.plain_name_text = Some ("John Smith" : str)
  /\ name (ResumeParser._extract_contact Spec.plain_name_text) = None.
Proof. split; vm_compute; reflexivity. Qed.

End ContactName.

(** ** Claims of experience against the age of a technology *)

Section ExperienceClaims.

Lemma check_claim_first_entry (current_year years : Z) (tech : str)
    (table : list (str * Z)) :
  Validator.check_claim current_year years tech table
  = match Spec.first_entry_in tech table with
    | Some (known_tech, release_year) =>
        if years >? (current_year - release_year) + 1
        then [Validator.mismatch_flag years (current_year - release_year)
                                      known_tech release_year]
        else []
    | None => []
    end.
Proof.
  induction table as [|[k y] table IH]; [reflexivity|].
  cbn [Validator.check_claim Spec.first_entry_in find fst].
  destruct (is_infix k tech); [reflexivity|]. exact IH.
Qed.

(** C4, as the code has it.  For every matched claim of [years] years of a
    technology [tech], the check emits a flag exactly when the first entry
    of the table whose name occurs in [tech] has [years] above the age of
    that technology plus one; the flag is HIGH and its evidence has exactly
    the keys claimed_years, max_possible_years, technology and
    release_year.  For "8 years of experience with FastAPI" in 2024 the
    check emits one flag, with max_possible_years = 6. *)
Theorem experience_claim_flag :
  (forall (current_year years : Z) (tech : str),
     Validator.check_claim current_year years tech Validator.TECH_RELEASE_DATES
     = match Spec.first_entry_in tech Validator.TECH_RELEASE_DATES with
       | Some (known_tech, release_year) =>
           if years >? (current_year - release_year) + 1
           then [Validator.mismatch_flag years (current_year - release_year)
                                         known_tech release_year]
           else []
       | None => []
       end)
  /\ (forall (years max_possible_years release_year : Z) (known_tech : str),
        let flag :=
          Validator.mismatch_flag years max_possible_years known_tech release_year in
        severity flag = Some ("HIGH" : str)
        /\ evidence flag
           = [ ("claimed_years" : str, EvInt years);
               ("max_possible_years" : str, EvInt max_possible_years);
               ("technology" : str, EvStr known_tech);
               ("release_year" : str, EvInt release_year) ])
  /\ (forall (current_year : Z) (resume_data : ResumeData),
        Validator._validate_experience_claims current_year resume_data
        = flat_map
            (fun pattern =>
               flat_map
                 (fun m =>
                    Validator.check_claim current_year
                      (fst (Validator.years_and_tech m))
                      (snd (Validator.years_and_tech m))
                      Validator.TECH_RELEASE_DATES)
                 (Re.findall2 pattern (Validator.full_text resume_data)))
            Validator.patterns)
  /\ Validator._validate_experience_claims 2024 Spec.scenario_A
     = [Validator.mismatch_flag 8 6 "fastapi" 2018].
Proof.
  split; [|split; [|split]].
  - intros. apply check_claim_first_entry.
  - intros. split; reflexivity.
  - intros cy rd. unfold Validator._validate_experience_claims.
    apply flat_map_ext. intros p. apply flat_map_ext. intros m.
    destruct (Validator.years_and_tech m). reflexivity.
  - vm_compute. reflexivity.
Qed.

(** C4, as it is stated, fails: the flag of Scenario A has no key
    introduction_year; the year of release is under the key release_year. *)
Lemma scenario_A_evidence_keys :
  exists flag : Flag,
    Validator._validate_experience_claims 2024 Spec.scenario_A = [flag]
    /\ severity flag = Some ("HIGH" : str)
    /\ Spec.keys_of flag
       = strs ["claimed_years"; "max_possible_years"; "technology"; "release_year"]
    /\ Spec.keys_of flag
       <> strs ["claimed_years"; "max_possible_years"; "technology";
                "introduction_year"]
    /\ ~ In ("introduction_year" : str) (Spec.keys_of flag).
Proof.
  eexists. split; [vm_compute; reflexivity|].
  split; [reflexivity|]. split; [reflexivity|].
  split; [discriminate|].
  cbn. intros [H|[H|[H|[H|[]]]]]; discriminate H.
Qed.

End ExperienceClaims.

(** ** The fact extractor *)

Section ClockMonad.

Lemma bind_unfold {A B : Type} (m : M A) (f : A -> M B) (clk : Clock) (n : nat) :
  bind m f clk n = f (fst (m clk n)) clk (snd (m clk n)).
Proof. unfold bind. destruct (m clk n). reflexivity. Qed.

Lemma entries_cons (sec : str) (m : Re.Match) (ms : list Re.Match)
    (clk : Clock) (n : nat) :
  fst (ResumeParser.entries sec (m :: ms) clk n)
  = fst (ResumeParser.entry sec m (hd_error ms) clk n)
    :: fst (ResumeParser.entries sec ms clk
              (snd (ResumeParser.entry sec m (hd_error ms) clk n))).
Proof.
  cbn [ResumeParser.entries]. rewrite bind_unfold, bind_unfold. reflexivity.
Qed.

(** What holds of every entry that the loop body builds holds of every
    entry of the list that the loop returns. *)
Lemma entries_Forall (P : Experience -> Prop) (sec : str) (clk : Clock) :
  (forall m next k, P (fst (ResumeParser.entry sec m next clk k))) ->
  forall ms n, Forall P (fst (ResumeParser.entries sec ms clk n)).
Proof.
  intros HP ms. induction ms as [|m ms IH]; intros n.
  - constructor.
  - rewrite entries_cons. constructor; [apply HP | apply IH].
Qed.


Lemma Forall_upto {A : Type} (P : A -> Prop) (n : nat) (l : list A) :
  Forall P l -> Forall P (upto n l).
Proof.
  intros H. revert n. induction H as [|x l Hx Hl IH]; intros [|n]; cbn;
    constructor; auto.
Qed.


(** The list of experience entries of a run, as the loop builds it. *)
Lemma extract_experience_run (text : str) (clk : Clock) (n : nat) :
  fst (ResumeParser._extract_experience text clk n)
  = match experience_section text with
    | None => []
    | Some sec =>
        upto 10 (fst (ResumeParser.entries sec
                        (ResumeParser.first_matching ResumeParser.DATE_PATTERNS sec)
                        clk n))
    end.
Proof.
  unfold ResumeParser._extract_experience, experience_section.
  destruct (ResumeParser.section_or_nothing _); [|reflexivity].
  rewrite bind_unfold. reflexivity.
Qed.

(** The fields of the record of a run. *)
Lemma parse_run (path text : str) (clk : Clock) :
  run (ResumeParser.parse path text) clk
  = mkResumeData
      (Some path) (Some (clk O)) (Some (List.length text))
      (Some (ResumeParser._extract_contact text))
      (Some (fst (ResumeParser._extract_experience text clk 1%nat)))
      (Some (ResumeParser._extract_education text))
      (Some (ResumeParser._extract_skills text))
      (Some (ResumeParser._extract_certifications text))
      (ResumeParser._extract_summary text)
      (Some (ResumeParser._calculate_total_experience
               (fst (ResumeParser._extract_experience text clk 1%nat))))
      (Some (ResumeParser._extract_skill_keywords text)).
Proof.
  unfold run, ResumeParser.parse. rewrite !bind_unfold. reflexivity.
Qed.

End ClockMonad.

Section FactExtractor.

Lemma entry_run (sec : str) (m : Re.Match) (next : option Re.Match)
    (clk : Clock) (k : nat) :
  fst (ResumeParser.entry sec m next clk k)
  = mkExperience
      (Some (upto 300
               (slice (Z.max 0 (Z.of_nat (Re.m_start m) - 200))
                      (match next with
                       | Some m' => Z.of_nat (Re.m_start m')
                       | None => Z.of_nat (Re.m_end m) + 500
                       end)
                      sec)))
      (Some (Re.group m 1, Re.group m 2))
      (Some (fst (ResumeParser._calculate_duration (Re.group m 1) (Re.group m 2) clk k)))
      None None.
Proof.
  unfold ResumeParser.entry. rewrite bind_unfold. reflexivity.
Qed.





Lemma entry_untitled (sec : str) (clk : Clock) (m : Re.Match)
    (next : option Re.Match) (k : nat) :
  title (fst (ResumeParser.entry sec m next clk k)) = None
  /\ company (fst (ResumeParser.entry sec m next clk k)) = None.
Proof. rewrite entry_run. split; reflexivity. Qed.

(** Every entry of a run has what every entry of the loop has. *)
Lemma extracted_Forall (P : Experience -> Prop) (text : str) (clk : Clock) :
  (forall sec m next k, P (fst (ResumeParser.entry sec m next clk k))) ->
  forall n, Forall P (fst (ResumeParser._extract_experience text clk n)).
Proof.
  intros HP n. rewrite extract_experience_run.
  destruct (experience_section text) as [sec|]; [|constructor].
  apply Forall_upto, entries_Forall. apply HP.
Qed.




(** C10.  Every experience entry of a record that the fact extractor
    produces has no title and no company; so, for every text and every
    network profile, the title check of the validator emits no flag on such
    a record. *)
Theorem extracted_titles_never_mismatch :
  forall (clk : Clock) (path text : str) (linkedin_data : LinkedinData),
    let facts := run (ResumeParser.parse path text) clk in
    (exists exps : list Experience,
       experience facts = Some exps
       /\ Forall (fun e => title e = None /\ company e = None) exps)
    /\ Validator._validate_resume_vs_linkedin facts linkedin_data = [].
Proof.
  intros clk path text li facts. unfold facts. rewrite parse_run.
  set (exps := fst (ResumeParser._extract_experience text clk 1%nat)).
  assert (U : Forall (fun e => title e = None /\ company e = None) exps)
    by (apply extracted_Forall; intros; apply entry_untitled).
  split; [exists exps; split; [reflexivity | exact U]|].
  unfold Validator._validate_resume_vs_linkedin. cbn [experience get].
  assert (E : forall acc,
             fold_left
               (fun acc exp =>
                  match title exp with
                  | Some t => if truthy t then Validator.set_add (lower t) acc else acc
                  | None => acc
                  end) exps acc = acc).
  { induction U as [|e exps' [Ht _] _ IH]; intros acc; cbn; [reflexivity|].
    rewrite Ht. apply IH. }
  unfold Validator.resume_titles_of. rewrite E.
  destruct (Validator.status_failed li); reflexivity.
Qed.

End FactExtractor.

(** ** The excerpt of an experience entry *)

Section Excerpt.





End Excerpt.

(** ** Two runs on the same text *)

Section Determinism.







(** Where the joined header pattern compiles, a position that is still
    held is measured against the clock.  The text [current_job_text] holds
    the position "Jan 2020 - present"; a run in January 2024 gives it 48 months
    and a total of 4.0 years, a run in June 2024 gives it 53 months and a
    total of 4.4 years. *)
Lemma present_job_under_two_clocks :
  let january := run (ResumeParser.parse "cv.pdf" SpecFacts.current_job_text)
                     SpecFacts.january_2024 in
  let june := run (ResumeParser.parse "cv.pdf" SpecFacts.current_job_text)
                  SpecFacts.june_2024 in
  option_map (map duration_months) (experience january) = Some [Some 48]
  /\ option_map (map duration_months) (experience june) = Some [Some 53]
  /\ experience january <> experience june
  /\ total_years_experience january = Some (round1 (48 / 12))
  /\ total_years_experience june = Some (round1 (53 / 12))
  /\ ~ (round1 (48 / 12) == round1 (53 / 12))%Q
  /\ total_years_experience january <> total_years_experience june.
Proof.
  cbv zeta.
  assert (J : option_map (map duration_months)
                (experience (run (ResumeParser.parse "cv.pdf" SpecFacts.current_job_text)
                                 SpecFacts.january_2024)) = Some [Some 48])
    by (vm_compute; reflexivity).
  assert (U : option_map (map duration_months)
                (experience (run (ResumeParser.parse "cv.pdf" SpecFacts.current_job_text)
                                 SpecFacts.june_2024)) = Some [Some 53])
    by (vm_compute; reflexivity).
  assert (TJ : total_years_experience
                 (run (ResumeParser.parse "cv.pdf" SpecFacts.current_job_text)
                      SpecFacts.january_2024) = Some (round1 (48 / 12)))
    by (vm_compute; reflexivity).
  assert (TU : total_years_experience
                 (run (ResumeParser.parse "cv.pdf" SpecFacts.current_job_text)
                      SpecFacts.june_2024) = Some (round1 (53 / 12)))
    by (vm_compute; reflexivity).
  split; [exact J|]. split; [exact U|].
  split; [intros E; rewrite E in J; rewrite J in U; discriminate U|].
  split; [exact TJ|]. split; [exact TU|].
  split; [intros E; vm_compute in E; discriminate E|].
  intros E. rewrite TJ, TU in E. vm_compute in E. discriminate E.
Qed.

End Determinism.

(** ** The parser under either interpreter *)

Section Versions.

Lemma extract_section_before (text name : str) :
  ByVersion._extract_section ByVersion.before_3_11 text name
  = ByVersion.Returned (ResumeParser._extract_section text name).
Proof.
  unfold ByVersion._extract_section, ResumeParser._extract_section.
  destruct (ResumeParser.lookup name ResumeParser.SECTION_PATTERNS) as [pattern|];
    [|reflexivity].
  destruct (Re.search pattern text); reflexivity.
Qed.


(** A section that is returned is the section of [ResumeParser]. *)
Lemma extract_section_returned (v : ByVersion.Interpreter) (text name : str)
    (o : option str) :
  ByVersion._extract_section v text name = ByVersion.Returned o ->
  ResumeParser._extract_section text name = o.
Proof.
  destruct v.
  - rewrite extract_section_before. intros E. injection E as E. exact E.
  - unfold ByVersion._extract_section, ResumeParser._extract_section.
    destruct (ResumeParser.lookup name ResumeParser.SECTION_PATTERNS) as [pattern|].
    + destruct (Re.search pattern text); cbn [ByVersion.search_all_patterns
        ByVersion.and_then]; intros E;
        [discriminate E | injection E as E; exact E].
    + intros E. injection E as E. exact E.
Qed.

Lemma extract_experience_returned (v : ByVersion.Interpreter) (text : str)
    (clk : Clock) (n : nat) (exps : list Experience) :
  fst (ByVersion._extract_experience v text clk n) = ByVersion.Returned exps ->
  fst (ResumeParser._extract_experience text clk n) = exps.
Proof.
  unfold ByVersion._extract_experience, ResumeParser._extract_experience.
  destruct (ByVersion._extract_section v text "experience") as [o|] eqn:S;
    [|intros E; discriminate E].
  rewrite (extract_section_returned _ _ _ _ S).
  destruct (ResumeParser.section_or_nothing o).
  - rewrite !bind_unfold. cbn [ret fst]. intros E. injection E as E. exact E.
  - cbn [ret fst]. intros E. injection E as E. exact E.
Qed.

Lemma extract_education_returned (v : ByVersion.Interpreter) (text : str)
    (l : list Education) :
  ByVersion._extract_education v text = ByVersion.Returned l ->
  ResumeParser._extract_education text = l.
Proof.
  unfold ByVersion._extract_education, ResumeParser._extract_education.
  destruct (ByVersion._extract_section v text "education") as [o|] eqn:S;
    [|intros E; discriminate E].
  rewrite (extract_section_returned _ _ _ _ S). cbn [ByVersion.and_then].
  destruct (ResumeParser.section_or_nothing o); intros E; injection E as E; exact E.
Qed.

Lemma extract_skills_returned (v : ByVersion.Interpreter) (text : str)
    (l : list str) :
  ByVersion._extract_skills v text = ByVersion.Returned l ->
  ResumeParser._extract_skills text = l.
Proof.
  unfold ByVersion._extract_skills, ResumeParser._extract_skills.
  destruct (ByVersion._extract_section v text "skills") as [o|] eqn:S;
    [|intros E; discriminate E].
  rewrite (extract_section_returned _ _ _ _ S). cbn [ByVersion.and_then].
  destruct (ResumeParser.section_or_nothing o); intros E; injection E as E; exact E.
Qed.

Lemma extract_certifications_returned (v : ByVersion.Interpreter) (text : str)
    (l : list str) :
  ByVersion._extract_certifications v text = ByVersion.Returned l ->
  ResumeParser._extract_certifications text = l.
Proof.
  unfold ByVersion._extract_certifications, ResumeParser._extract_certifications.
  destruct (ByVersion._extract_section v text "certifications") as [o|] eqn:S;
    [|intros E; discriminate E].
  rewrite (extract_section_returned _ _ _ _ S). cbn [ByVersion.and_then].
  destruct (ResumeParser.section_or_nothing o); intros E; injection E as E; exact E.
Qed.

Lemma extract_summary_returned (v : ByVersion.Interpreter) (text : str)
    (o : option str) :
  ByVersion._extract_summary v text = ByVersion.Returned o ->
  ResumeParser._extract_summary text = o.
Proof.
  unfold ByVersion._extract_summary, ResumeParser._extract_summary.
  destruct (ByVersion._extract_section v text "summary") as [sec|] eqn:S;
    [|intros E; discriminate E].
  rewrite (extract_section_returned _ _ _ _ S). cbn [ByVersion.and_then].
  destruct (ResumeParser.section_or_nothing sec); intros E; injection E as E; exact E.
Qed.

(** Every record that [parse] returns, under either interpreter, is the
    record of [ResumeParser.parse]. *)
Lemma parse_returned (v : ByVersion.Interpreter) (path text : str)
    (clk : Clock) (r : ResumeData) :
  run (ByVersion.parse v path text) clk = ByVersion.Returned r ->
  run (ResumeParser.parse path text) clk = r.
Proof.
  unfold run, ByVersion.parse, ResumeParser.parse. rewrite !bind_unfold.
  cbn [now fst snd ret].
  destruct (fst (ByVersion._extract_experience v text clk 1%nat)) as [exps|] eqn:X;
    [|intros E; discriminate E].
  rewrite (extract_experience_returned _ _ _ _ _ X).
  destruct (ByVersion._extract_education v text) as [edu|] eqn:D;
    [|intros E; discriminate E].
  rewrite (extract_education_returned _ _ _ D).
  destruct (ByVersion._extract_skills v text) as [sk|] eqn:K;
    [|intros E; discriminate E].
  rewrite (extract_skills_returned _ _ _ K).
  destruct (ByVersion._extract_certifications v text) as [ce|] eqn:C;
    [|intros E; discriminate E].
  rewrite (extract_certifications_returned _ _ _ C).
  destruct (ByVersion._extract_summary v text) as [su|] eqn:U;
    [|intros E; discriminate E].
  rewrite (extract_summary_returned _ _ _ U).
  cbn [ByVersion.and_then]. intros E. injection E as E. exact E.
Qed.


Lemma extract_experience_before (text : str) (clk : Clock) (n : nat) :
  fst (ByVersion._extract_experience ByVersion.before_3_11 text clk n)
  = ByVersion.Returned (fst (ResumeParser._extract_experience text clk n)).
Proof.
  unfold ByVersion._extract_experience, ResumeParser._extract_experience.
  rewrite extract_section_before.
  destruct (ResumeParser.section_or_nothing _); [|reflexivity].
  rewrite !bind_unfold. reflexivity.
Qed.

(** Before 3.11 [parse] returns, and returns the record of
    [ResumeParser.parse]. *)
Lemma parse_before (path text : str) (clk : Clock) :
  run (ByVersion.parse ByVersion.before_3_11 path text) clk
  = ByVersion.Returned (run (ResumeParser.parse path text) clk).
Proof.
  unfold run, ByVersion.parse, ResumeParser.parse. rewrite !bind_unfold.
  cbn [now fst snd ret]. rewrite extract_experience_before.
  unfold ByVersion._extract_education, ByVersion._extract_skills,
    ByVersion._extract_certifications, ByVersion._extract_summary,
    ResumeParser._extract_education, ResumeParser._extract_skills,
    ResumeParser._extract_certifications, ResumeParser._extract_summary.
  rewrite !extract_section_before. cbn [ByVersion.and_then].
  destruct (ResumeParser.section_or_nothing (ResumeParser._extract_section text "education"));
    destruct (ResumeParser.section_or_nothing (ResumeParser._extract_section text "skills"));
    destruct (ResumeParser.section_or_nothing
                (ResumeParser._extract_section text "certifications"));
    destruct (ResumeParser.section_or_nothing (ResumeParser._extract_section text "summary"));
    reflexivity.
Qed.



(** Before 3.11 the position "Jan 2020 - present" of [current_job_text]
    is measured against the clock: 48 months in a run of January 2024, 53
    in a run of June 2024. *)
Lemma present_job_before_3_11 :
  exists january june : ResumeData,
    run (ByVersion.parse ByVersion.before_3_11 "cv.pdf" SpecFacts.current_job_text)
        SpecFacts.january_2024 = ByVersion.Returned january
    /\ run (ByVersion.parse ByVersion.before_3_11 "cv.pdf" SpecFacts.current_job_text)
           SpecFacts.june_2024 = ByVersion.Returned june
    /\ option_map (map duration_months) (experience january) = Some [Some 48%Z]
    /\ option_map (map duration_months) (experience june) = Some [Some 53%Z]
    /\ ~ ByVersion.same_but_timestamp january june.
Proof.
  eexists. eexists. rewrite !parse_before.
  split; [reflexivity|]. split; [reflexivity|].
  pose proof present_job_under_two_clocks as H. cbv zeta in H.
  destruct H as (J & U & N & _).
  split; [exact J|]. split; [exact U|].
  unfold ByVersion.same_but_timestamp. intros (_ & _ & _ & E & _). exact (N E).
Qed.

End Versions.

(** * Further properties *)

(** ** The credibility score under changes of the flag list *)

Section CredibilityOrder.

Open Scope Q_scope.

Lemma total_cost_app (l1 l2 : list Flag) :
  Spec.total_cost (l1 ++ l2) == Spec.total_cost l1 + Spec.total_cost l2.
Proof.
  induction l1 as [|f l1 IH]; cbn [app].
  - unfold Spec.total_cost at 2, Spec.number_of. cbn. ring.
  - rewrite !total_cost_cons, IH. ring.
Qed.

Lemma total_cost_permutation (l1 l2 : list Flag) :
  Permutation l1 l2 -> Spec.total_cost l1 == Spec.total_cost l2.
Proof.
  induction 1 as [|f l1 l2 _ IH|f g l|l1 l2 l3 _ IH1 _ IH2].
  - reflexivity.
  - rewrite !total_cost_cons, IH. reflexivity.
  - rewrite !total_cost_cons. ring.
  - now rewrite IH1.
Qed.

Lemma total_cost_high (flags : list Flag) :
  3 * Spec.number_of Spec.is_high flags <= Spec.total_cost flags.
Proof.
  unfold Spec.total_cost.
  pose proof (number_of_nonneg Spec.is_medium flags).
  pose proof (number_of_nonneg Spec.is_other flags).
  lra.
Qed.

(** The credibility score of the validator is a number of [0, 10]. *)
Theorem credibility_score_range (flags : list Flag) :
  0 <= Validator.get_credibility_score flags <= 10.
Proof.
  rewrite validator_credibility_value. apply round1_range.
  pose proof (total_cost_nonneg flags). split.
  - apply Q.le_max_l.
  - apply Q.max_lub; lra.
Qed.

(** More flags never raise the credibility score. *)
Theorem credibility_score_antitone (flags more : list Flag) :
  Validator.get_credibility_score (flags ++ more)
  <= Validator.get_credibility_score flags.
Proof.
  rewrite !validator_credibility_value. apply round1_mono.
  apply Q.max_le_compat_l.
  rewrite total_cost_app. pose proof (total_cost_nonneg more). lra.
Qed.

(** The credibility score does not depend on the order of the flags. *)
Theorem credibility_score_permutation (flags flags' : list Flag) :
  Permutation flags flags' ->
  Validator.get_credibility_score flags = Validator.get_credibility_score flags'.
Proof.
  intros P. rewrite !validator_credibility_value. apply round1_comp.
  now rewrite (total_cost_permutation _ _ P).
Qed.

Lemma credibility_score_permutation_witness :
  Validator.get_credibility_score [Examples.high_flag; Examples.low_flag]
  = Validator.get_credibility_score [Examples.low_flag; Examples.high_flag].
Proof.
  apply (credibility_score_permutation
           [Examples.high_flag; Examples.low_flag]
           [Examples.low_flag; Examples.high_flag]).
  apply perm_swap.
Defined.

(** Four HIGH flags, whatever the rest of the list, bring the credibility
    score down to 0. *)
Theorem four_high_flags_floor (flags : list Flag) :
  (4 <= List.length (filter Spec.is_high flags))%nat ->
  Validator.get_credibility_score flags == 0.
Proof.
  intros H. rewrite validator_credibility_value.
  assert (E : Qmax 0 (10 - Spec.total_cost flags) == 0).
  { apply Q.max_l. pose proof (total_cost_high flags) as T.
    assert (N : 4 <= Spec.number_of Spec.is_high flags).
    { unfold Spec.number_of. rewrite <- (Zle_Qle 4). lia. }
    lra. }
  rewrite (round1_comp _ _ E). reflexivity.
Qed.

Lemma four_high_flags_floor_witness :
  Validator.get_credibility_score
    [Examples.high_flag; Examples.medium_flag; Examples.high_flag;
     Examples.high_flag; Examples.high_flag] == 0.
Proof.
  apply (four_high_flags_floor
           [Examples.high_flag; Examples.medium_flag; Examples.high_flag;
            Examples.high_flag; Examples.high_flag]).
  vm_compute. lia.
Defined.

End CredibilityOrder.

(** ** The age check, flag by flag *)

Section AgeCheck.

Lemma is_prefix_app (p s : str) :
  is_prefix p s = true <-> exists post, s = (p ++ post)%list.
Proof.
  revert s. induction p as [|x p IH]; intros s; cbn.
  - split; [intros _; now exists s | reflexivity].
  - destruct s as [|y s].
    + split; [discriminate | intros [post H]; discriminate H].
    + rewrite andb_true_iff, Ascii.eqb_eq, IH. split.
      * intros [-> [post ->]]. now exists post.
      * intros [post H]. injection H as -> ->. split; [reflexivity | now exists post].
Qed.

Lemma is_infix_app (sub s : str) :
  is_infix sub s = true <-> exists pre post, s = (pre ++ sub ++ post)%list.
Proof.
  induction s as [|c s IH].
  - cbn. rewrite orb_false_r, is_prefix_app. split.
    + intros [post H]. now exists [], post.
    + intros (pre & post & H). destruct pre; cbn in H.
      * now exists post.
      * discriminate H.
  - cbn [is_infix]. rewrite orb_true_iff, is_prefix_app, IH. split.
    + intros [[post H]|(pre & post & H)].
      * now exists [], post.
      * exists (c :: pre), post. cbn. now rewrite H.
    + intros (pre & post & H). destruct pre as [|c' pre]; cbn in H.
      * left. now exists post.
      * right. injection H as _ H. now exists pre, post.
Qed.

Lemma is_infix_trans (a b c : str) :
  is_infix a b = true -> is_infix b c = true -> is_infix a c = true.
Proof.
  rewrite !is_infix_app. intros (p1 & q1 & ->) (p2 & q2 & ->).
  exists (p2 ++ p1)%list, (q1 ++ q2)%list. now rewrite <- !app_assoc.
Qed.

Lemma first_entry_in_table (tech : str) (table : list (str * Z)) (k : str) (y : Z) :
  Spec.first_entry_in tech table = Some (k, y) ->
  In (k, y) table /\ is_infix k tech = true.
Proof.
  unfold Spec.first_entry_in. intros H. apply find_some in H. exact H.
Qed.

Lemma check_claim_age_flag (current_year years : Z) (tech : str) :
  Forall (FlagShape.age_flag current_year)
         (Validator.check_claim current_year years tech Validator.TECH_RELEASE_DATES).
Proof.
  rewrite check_claim_first_entry.
  destruct (Spec.first_entry_in tech Validator.TECH_RELEASE_DATES) as [[k y]|] eqn:E;
    [|constructor].
  apply first_entry_in_table in E. destruct E as [Hin _].
  destruct (Z.gtb_spec years (current_year - y + 1)); constructor; [|constructor].
  exists years, y, k. repeat split; [exact Hin | lia].
Qed.

Lemma Forall_flat_map {A B : Type} (P : B -> Prop) (f : A -> list B) (l : list A) :
  (forall a, Forall P (f a)) -> Forall P (flat_map f l).
Proof.
  intros H. induction l as [|a l IH]; cbn; [constructor|].
  apply Forall_app. split; [apply H | exact IH].
Qed.

Lemma experience_claims_age_flags (current_year : Z) (resume_data : ResumeData) :
  Forall (FlagShape.age_flag current_year)
         (Validator._validate_experience_claims current_year resume_data).
Proof.
  unfold Validator._validate_experience_claims.
  apply Forall_flat_map. intros p. apply Forall_flat_map. intros m.
  destruct (Validator.years_and_tech m). apply check_claim_age_flag.
Qed.

(** Every flag of the age check names an entry of the table of release
    years, reports as [max_possible_years] the current year minus the
    release year of that entry, and reports more claimed years than that
    plus one. *)
Theorem experience_flags_are_age_flags :
  forall (current_year : Z) (resume_data : ResumeData),
    Forall (FlagShape.age_flag current_year)
           (Validator._validate_experience_claims current_year resume_data).
Proof. exact experience_claims_age_flags. Qed.

(** No release year of the table is after 2022. *)
Lemma release_years_bound :
  Forall (fun entry => (snd entry <= 2022)%Z) Validator.TECH_RELEASE_DATES.
Proof. repeat constructor; cbn; lia. Qed.

(** A claim of no more years than the current year minus 2021 is never
    flagged, whatever the technology. *)
Theorem short_claims_are_never_flagged :
  forall (current_year years : Z) (tech : str),
    (years <= current_year - 2021)%Z ->
    Validator.check_claim current_year years tech Validator.TECH_RELEASE_DATES = [].
Proof.
  intros cy years tech Hy.
  pose proof (check_claim_age_flag cy years tech) as F.
  destruct (Validator.check_claim cy years tech Validator.TECH_RELEASE_DATES) as [|f l] eqn:E;
    [reflexivity|].
  apply Forall_inv in F. destruct F as (ys & y & k & Hin & Hf & Hlt).
  pose proof release_years_bound as B. rewrite Forall_forall in B.
  specialize (B _ Hin). cbn in B.
  rewrite check_claim_first_entry in E.
  destruct (Spec.first_entry_in tech Validator.TECH_RELEASE_DATES) as [[k' y']|] eqn:E';
    [|discriminate E].
  destruct (Z.gtb_spec years (cy - y' + 1)) as [G|G]; [|discriminate E].
  apply first_entry_in_table in E'. destruct E' as [Hin' _].
  pose proof release_years_bound as B'. rewrite Forall_forall in B'.
  specialize (B' _ Hin'). cbn in B'. lia.
Qed.

Lemma short_claims_are_never_flagged_witness :
  Validator.check_claim 2024 3 "langchain" Validator.TECH_RELEASE_DATES = [].
Proof.
  apply (short_claims_are_never_flagged 2024 3 "langchain"). lia.
Defined.

End AgeCheck.

(** ** Entries of the table that the age check never reaches *)

Section Shadowed.

Ltac shadowed_branch tech :=
  first
    [ match goal with
      | H : is_infix ?k2 tech = true, H0 : is_infix ?k1 tech = false |- _ =>
          rewrite (is_infix_trans k1 k2 tech eq_refl H) in H0; discriminate H0
      end
    | match goal with
      | |- Forall _ (if ?c then _ else _) =>
          destruct c; repeat constructor; vm_compute; reflexivity
      end ].

Lemma check_claim_names_live_entry (current_year years : Z) (tech : str) :
  Forall FlagShape.names_live_entry
         (Validator.check_claim current_year years tech Validator.TECH_RELEASE_DATES).
Proof.
  cbv [Validator.TECH_RELEASE_DATES map fst snd].
  cbn [Validator.check_claim].
  repeat match goal with
         | |- Forall _ (if is_infix ?k tech then _ else _) =>
             destruct (is_infix k tech) eqn:?; [solve [shadowed_branch tech]|]
         end.
  constructor.
Qed.

(** No flag of the age check names "react native", "vue.js", "tailwindcss"
    or "golang": each of them comes in the table after an entry whose name
    is part of its own ("react", "vue", "tailwind", "go"), and that entry
    is the one a claim is checked against.  Every other entry of the table
    is the one that a claim of exactly its name is checked against. *)
Theorem shadowed_entries_are_never_reported :
  (forall (current_year : Z) (resume_data : ResumeData),
     Forall FlagShape.names_live_entry
            (Validator._validate_experience_claims current_year resume_data))
  /\ forallb FlagShape.shadowed_or_reached Validator.TECH_RELEASE_DATES = true.
Proof.
  split; [|vm_compute; reflexivity].
  intros cy rd. unfold Validator._validate_experience_claims.
  apply Forall_flat_map. intros p. apply Forall_flat_map. intros m.
  destruct (Validator.years_and_tech m). apply check_claim_names_live_entry.
Qed.

End Shadowed.

(** ** The title check *)

Section Titles.

Lemma existsb_str_eqb_In (x : str) (l : list str) :
  existsb (str_eqb x) l = true <-> In x l.
Proof.
  rewrite existsb_exists. split.
  - intros (y & Hy & E). apply str_eqb_eq in E. now subst.
  - intros H. exists x. split; [exact H | now apply str_eqb_eq].
Qed.

Lemma In_set_add (x y : str) (l : list str) :
  In x (Validator.set_add y l) <-> x = y \/ In x l.
Proof.
  unfold Validator.set_add.
  destruct (existsb (str_eqb y) l) eqn:E.
  - apply existsb_str_eqb_In in E. split; [now right|].
    intros [->|H]; assumption.
  - rewrite in_app_iff. cbn. split.
    + intros [H|[H|[]]]; [now right | now left].
    + intros [H|H]; [right; now left | now left].
Qed.

Lemma In_resume_titles (x : str) (exps : list Experience) :
  In x (Validator.resume_titles_of exps)
  <-> exists e t, In e exps /\ title e = Some t /\ t <> [] /\ x = lower t.
Proof.
  unfold Validator.resume_titles_of.
  assert (G : forall acc,
             In x (fold_left
                     (fun acc exp =>
                        match title exp with
                        | Some t => if truthy t then Validator.set_add (lower t) acc else acc
                        | None => acc
                        end) exps acc)
             <-> In x acc
                 \/ exists e t, In e exps /\ title e = Some t /\ t <> [] /\ x = lower t).
  { induction exps as [|e exps IH]; intros acc; cbn [fold_left].
    - split; [now left | intros [H|(e & t & [] & _)]; exact H].
    - rewrite IH. split.
      + intros [H|(e' & t & Hin & Ht & Hne & Hx)].
        * destruct (title e) as [t|] eqn:Te; [|now left].
          destruct t as [|c t]; cbn [truthy] in H; [now left|].
          apply In_set_add in H. destruct H as [->|H]; [|now left].
          right. exists e, (c :: t). repeat split; [now left | exact Te | discriminate].
        * right. exists e', t. repeat split; [now right | exact Ht | exact Hne | exact Hx].
      + intros [H|(e' & t & [<-|Hin] & Ht & Hne & Hx)].
        * left. destruct (title e) as [t|]; [|exact H].
          destruct (truthy t); [|exact H]. apply In_set_add. now right.
        * left. rewrite Ht. destruct t as [|c t]; [congruence|]. cbn [truthy].
          apply In_set_add. now left.
        * right. exists e', t. repeat split; assumption. }
  rewrite G. cbn. split; [intros [[]|H]; exact H | intros H; now right].
Qed.

Lemma In_linkedin_titles (x : str) (exps : list LinkedinExperience) :
  In x (Validator.linkedin_titles_of exps)
  <-> exists e t, In e exps /\ li_title e = Some t /\ t <> [] /\ x = lower t.
Proof.
  unfold Validator.linkedin_titles_of.
  assert (G : forall acc,
             In x (fold_left
                     (fun acc exp =>
                        match li_title exp with
                        | Some t => if truthy t then Validator.set_add (lower t) acc else acc
                        | None => acc
                        end) exps acc)
             <-> In x acc
                 \/ exists e t, In e exps /\ li_title e = Some t /\ t <> [] /\ x = lower t).
  { induction exps as [|e exps IH]; intros acc; cbn [fold_left].
    - split; [now left | intros [H|(e & t & [] & _)]; exact H].
    - rewrite IH. split.
      + intros [H|(e' & t & Hin & Ht & Hne & Hx)].
        * destruct (li_title e) as [t|] eqn:Te; [|now left].
          destruct t as [|c t]; cbn [truthy] in H; [now left|].
          apply In_set_add in H. destruct H as [->|H]; [|now left].
          right. exists e, (c :: t). repeat split; [now left | exact Te | discriminate].
        * right. exists e', t. repeat split; [now right | exact Ht | exact Hne | exact Hx].
      + intros [H|(e' & t & [<-|Hin] & Ht & Hne & Hx)].
        * left. destruct (li_title e) as [t|]; [|exact H].
          destruct (truthy t); [|exact H]. apply In_set_add. now right.
        * left. rewrite Ht. destruct t as [|c t]; [congruence|]. cbn [truthy].
          apply In_set_add. now left.
        * right. exists e', t. repeat split; assumption. }
  rewrite G. cbn. split; [intros [[]|H]; exact H | intros H; now right].
Qed.

(** When a position of the facts record and a position of the network
    profile have the same non-empty title up to case, the title check
    emits no flag, however many other titles differ. *)
Theorem shared_title_is_never_a_mismatch :
  forall (resume_data : ResumeData) (linkedin_data : LinkedinData)
         (e : Experience) (e' : LinkedinExperience) (t t' : str),
    In e (get (experience resume_data) []) ->
    title e = Some t ->
    t <> [] ->
    In e' (get (li_experience linkedin_data) []) ->
    li_title e' = Some t' ->
    lower t = lower t' ->
    Validator._validate_resume_vs_linkedin resume_data linkedin_data = [].
Proof.
  intros rd ld e e' t t' He Ht Hne He' Ht' Hl.
  unfold Validator._validate_resume_vs_linkedin.
  destruct (Validator.status_failed ld); [reflexivity|].
  set (rt := Validator.resume_titles_of (get (experience rd) [])).
  set (lt := Validator.linkedin_titles_of (get (li_experience ld) [])).
  assert (Hr : In (lower t) rt).
  { apply In_resume_titles. exists e, t. repeat split; assumption. }
  assert (Hli : In (lower t) lt).
  { apply In_linkedin_titles. exists e', t'. repeat split; try assumption.
    intros ->. destruct t; [congruence | discriminate Hl]. }
  assert (Ho : In (lower t) (Validator.intersection rt lt)).
  { unfold Validator.intersection. apply filter_In. split; [exact Hr|].
    now apply existsb_str_eqb_In. }
  destruct (truthy rt && truthy lt); [|reflexivity].
  destruct (Validator.intersection rt lt); [destruct Ho | reflexivity].
Qed.

Lemma shared_title_is_never_a_mismatch_witness :
  Validator._validate_resume_vs_linkedin Examples.titled_resume
                                         Examples.titled_profile = [].
Proof.
  apply (shared_title_is_never_a_mismatch
           Examples.titled_resume Examples.titled_profile
           (Examples.titled "Team Lead")
           (mkLinkedinExperience (Some ("team lead" : str)))
           "Team Lead" "team lead").
  - simpl. right. left. reflexivity.
  - reflexivity.
  - discriminate.
  - simpl. right. left. reflexivity.
  - reflexivity.
  - reflexivity.
Defined.

End Titles.

(** ** [validate] as a whole *)

Section Validate.

Lemma In_strs (x : string) (l : list string) :
  In x l -> In (list_ascii_of_string x) (strs l).
Proof. intros H. unfold strs. now apply in_map. Qed.

Lemma age_flag_complete (current_year : Z) (f : Flag) :
  FlagShape.age_flag current_year f -> FlagShape.complete f.
Proof.
  intros (ys & y & k & _ & -> & _). repeat split.
  - eexists. split; [reflexivity|]. cbn. tauto.
  - eexists. split; [reflexivity|]. cbn. tauto.
  - eexists. reflexivity.
Qed.

Lemma timeline_complete (fmt : Q -> str) (rd : ResumeData) :
  Forall FlagShape.complete (Validator._validate_experience_timeline fmt rd).
Proof.
  unfold Validator._validate_experience_timeline.
  destruct (Validator.gt _ _); repeat constructor.
  - eexists. split; [reflexivity|]. cbn. tauto.
  - eexists. split; [reflexivity|]. cbn. tauto.
  - eexists. reflexivity.
Qed.

Lemma skills_complete (rd : ResumeData) (gd : Validator.GithubProfile) :
  Forall FlagShape.complete (Validator._validate_skills_vs_github rd gd).
Proof.
  unfold Validator._validate_skills_vs_github.
  apply Forall_flat_map. intros skill.
  destruct (Validator.mem skill _); [|constructor].
  destruct (negb _); [|constructor].
  destruct (Validator.gt _ _); repeat constructor.
  - eexists. split; [reflexivity|]. cbn. tauto.
  - eexists. split; [reflexivity|]. cbn. tauto.
  - eexists. reflexivity.
Qed.

Lemma activity_complete (fmt : Q -> str) (rd : ResumeData)
    (gd : Validator.GithubProfile) :
  Forall FlagShape.complete (Validator._validate_activity_level fmt rd gd).
Proof.
  unfold Validator._validate_activity_level.
  destruct (Qle_bool _ _); [|constructor].
  destruct (_ && _); repeat constructor.
  - eexists. split; [reflexivity|]. cbn. tauto.
  - eexists. split; [reflexivity|]. cbn. tauto.
  - eexists. reflexivity.
Qed.

Lemma linkedin_complete (rd : ResumeData) (ld : LinkedinData) :
  Forall FlagShape.complete (Validator._validate_resume_vs_linkedin rd ld).
Proof.
  unfold Validator._validate_resume_vs_linkedin.
  destruct (Validator.status_failed ld); [constructor|].
  destruct (_ && _); [|constructor].
  destruct (_ && _); repeat constructor.
  - eexists. split; [reflexivity|]. cbn. tauto.
  - eexists. split; [reflexivity|]. cbn. tauto.
  - eexists. reflexivity.
Qed.

(** Every flag that [validate] returns has a type out of the five flag
    types, a severity out of LOW, MEDIUM and HIGH, and a description;
    whatever the inputs. *)
Theorem validate_flags_are_complete :
  forall (fmt : Q -> str) (current_year : Z) (resume_data : option ResumeData)
         (github_data : option Validator.GithubProfile)
         (linkedin_data : option LinkedinData),
    Forall FlagShape.complete
           (Validator.validate fmt current_year resume_data github_data linkedin_data).
Proof.
  intros fmt cy rd gd ld. unfold Validator.validate.
  destruct (present resume_truthy rd) as [r|]; [|constructor].
  apply Forall_app; split; [|apply Forall_app; split; [|apply Forall_app; split]].
  - eapply Forall_impl; [|apply experience_claims_age_flags].
    intros f. apply age_flag_complete.
  - apply timeline_complete.
  - destruct (present Validator.profile_truthy gd); [|constructor].
    apply Forall_app. split; [apply skills_complete | apply activity_complete].
  - destruct (present Validator.linkedin_truthy ld); [|constructor].
    apply linkedin_complete.
Qed.

Lemma types_of_age_check (cy : Z) (rd : ResumeData) :
  Forall (fun f => type f = Some ("EXPERIENCE_MISMATCH" : str))
         (Validator._validate_experience_claims cy rd).
Proof.
  eapply Forall_impl; [|apply experience_claims_age_flags].
  intros f (ys & y & k & _ & -> & _). reflexivity.
Qed.

Lemma types_of_timeline (fmt : Q -> str) (rd : ResumeData) :
  Forall (fun f => type f = Some ("EXCESSIVE_EXPERIENCE" : str))
         (Validator._validate_experience_timeline fmt rd).
Proof.
  unfold Validator._validate_experience_timeline.
  destruct (Validator.gt _ _); repeat constructor.
Qed.

Lemma types_of_skills (rd : ResumeData) (gd : Validator.GithubProfile) :
  Forall (fun f => type f = Some ("SKILL_NOT_VERIFIED" : str))
         (Validator._validate_skills_vs_github rd gd).
Proof.
  unfold Validator._validate_skills_vs_github.
  apply Forall_flat_map. intros skill.
  destruct (Validator.mem skill _); [|constructor].
  destruct (negb _); [|constructor].
  destruct (Validator.gt _ _); repeat constructor.
Qed.

Lemma types_of_activity (fmt : Q -> str) (rd : ResumeData)
    (gd : Validator.GithubProfile) :
  Forall (fun f => type f = Some ("LOW_GITHUB_ACTIVITY" : str))
         (Validator._validate_activity_level fmt rd gd).
Proof.
  unfold Validator._validate_activity_level.
  destruct (Qle_bool _ _); [|constructor].
  destruct (_ && _); repeat constructor.
Qed.

Lemma types_of_linkedin (rd : ResumeData) (ld : LinkedinData) :
  Forall (fun f => type f = Some ("TITLE_MISMATCH" : str))
         (Validator._validate_resume_vs_linkedin rd ld).
Proof.
  unfold Validator._validate_resume_vs_linkedin.
  destruct (Validator.status_failed ld); [constructor|].
  destruct (_ && _); [|constructor].
  destruct (_ && _); repeat constructor.
Qed.

(** What [validate] does when an input is missing.  Without a facts record
    (absent or empty) it returns no flag, whatever the two profiles hold.
    Without an activity profile no flag is of type SKILL_NOT_VERIFIED or
    LOW_GITHUB_ACTIVITY; without a network profile, or with one whose
    status is "scraping_failed", no flag is of type TITLE_MISMATCH. *)
Theorem validate_with_missing_inputs :
  forall (fmt : Q -> str) (current_year : Z) (resume_data : option ResumeData)
         (github_data : option Validator.GithubProfile)
         (linkedin_data : option LinkedinData),
    Validator.validate fmt current_year None github_data linkedin_data = []
    /\ Validator.validate fmt current_year
         (Some (mkResumeData None None None None None None None None None None None))
         github_data linkedin_data = []
    /\ Forall (fun f => FlagShape.has_type "SKILL_NOT_VERIFIED" f = false
                        /\ FlagShape.has_type "LOW_GITHUB_ACTIVITY" f = false)
              (Validator.validate fmt current_year resume_data None linkedin_data)
    /\ Forall (fun f => FlagShape.has_type "TITLE_MISMATCH" f = false)
              (Validator.validate fmt current_year resume_data github_data None)
    /\ Forall (fun f => FlagShape.has_type "TITLE_MISMATCH" f = false)
              (Validator.validate fmt current_year resume_data github_data
                 (Some (mkLinkedinData (Some ("scraping_failed" : str))
                                       (li_experience_of linkedin_data)))).
Proof.
  intros fmt cy rd gd ld.
  split; [reflexivity|]. split; [reflexivity|].
  assert (A : forall r, Forall (fun f => FlagShape.has_type "SKILL_NOT_VERIFIED" f = false
                                  /\ FlagShape.has_type "LOW_GITHUB_ACTIVITY" f = false)
                          (Validator._validate_experience_claims cy r)).
  { intros r. eapply Forall_impl; [|apply types_of_age_check].
    intros f E. unfold FlagShape.has_type. rewrite E. split; reflexivity. }
  assert (B : forall r, Forall (fun f => FlagShape.has_type "SKILL_NOT_VERIFIED" f = false
                                  /\ FlagShape.has_type "LOW_GITHUB_ACTIVITY" f = false)
                          (Validator._validate_experience_timeline fmt r)).
  { intros r. eapply Forall_impl; [|apply types_of_timeline].
    intros f E. unfold FlagShape.has_type. rewrite E. split; reflexivity. }
  assert (C : forall r l, Forall (fun f => FlagShape.has_type "SKILL_NOT_VERIFIED" f = false
                                  /\ FlagShape.has_type "LOW_GITHUB_ACTIVITY" f = false)
                          (Validator._validate_resume_vs_linkedin r l)).
  { intros r l. eapply Forall_impl; [|apply types_of_linkedin].
    intros f E. unfold FlagShape.has_type. rewrite E. split; reflexivity. }
  assert (T1 : forall r, Forall (fun f => FlagShape.has_type "TITLE_MISMATCH" f = false)
                           (Validator._validate_experience_claims cy r)).
  { intros r. eapply Forall_impl; [|apply types_of_age_check].
    intros f E. unfold FlagShape.has_type. now rewrite E. }
  assert (T2 : forall r, Forall (fun f => FlagShape.has_type "TITLE_MISMATCH" f = false)
                           (Validator._validate_experience_timeline fmt r)).
  { intros r. eapply Forall_impl; [|apply types_of_timeline].
    intros f E. unfold FlagShape.has_type. now rewrite E. }
  assert (T3 : forall r g, Forall (fun f => FlagShape.has_type "TITLE_MISMATCH" f = false)
                           (Validator._validate_skills_vs_github r g)).
  { intros r g. eapply Forall_impl; [|apply types_of_skills].
    intros f E. unfold FlagShape.has_type. now rewrite E. }
  assert (T4 : forall r g, Forall (fun f => FlagShape.has_type "TITLE_MISMATCH" f = false)
                           (Validator._validate_activity_level fmt r g)).
  { intros r g. eapply Forall_impl; [|apply types_of_activity].
    intros f E. unfold FlagShape.has_type. now rewrite E. }
  assert (G : forall r, Forall (fun f => FlagShape.has_type "TITLE_MISMATCH" f = false)
                (match present Validator.profile_truthy gd with
                 | Some g => Validator._validate_skills_vs_github r g
                             ++ Validator._validate_activity_level fmt r g
                 | None => []
                 end)%list).
  { intros r. destruct (present Validator.profile_truthy gd); [|constructor].
    apply Forall_app. split; [apply T3 | apply T4]. }
  split; [|split].
  - unfold Validator.validate.
    destruct (present resume_truthy rd) as [r|]; [|constructor].
    cbn [present].
    apply Forall_app; split; [|apply Forall_app; split; [|apply Forall_app; split]].
    + apply A.
    + apply B.
    + constructor.
    + destruct (present Validator.linkedin_truthy ld); [apply C | constructor].
  - unfold Validator.validate.
    destruct (present resume_truthy rd) as [r|]; [|constructor].
    cbn [present].
    apply Forall_app; split; [|apply Forall_app; split; [|apply Forall_app; split]].
    + apply T1.
    + apply T2.
    + apply G.
    + constructor.
  - unfold Validator.validate.
    destruct (present resume_truthy rd) as [r|]; [|constructor].
    cbn [present Validator.linkedin_truthy li_status is_some orb].
    apply Forall_app; split; [|apply Forall_app; split; [|apply Forall_app; split]].
    + apply T1.
    + apply T2.
    + apply G.
    + constructor.
Qed.

End Validate.

(** ** The skills check *)

Section SkillsCheck.

Lemma NoDup_set_add (x : str) (l : list str) :
  NoDup l -> NoDup (Validator.set_add x l).
Proof.
  intros N. unfold Validator.set_add.
  destruct (existsb (str_eqb x) l) eqn:E; [exact N|].
  apply (Permutation_NoDup (Permutation_cons_append l x)).
  constructor; [|exact N].
  intros H. apply existsb_str_eqb_In in H. congruence.
Qed.

Lemma NoDup_claimed_skills (keywords : list SkillKeyword) :
  NoDup (Validator.claimed_skills_of keywords).
Proof.
  unfold Validator.claimed_skills_of.
  assert (G : forall acc, NoDup acc ->
            NoDup (fold_left (fun acc skill => Validator.set_add (lower (keyword skill)) acc)
                             keywords acc)).
  { induction keywords as [|k ks IH]; intros acc N; cbn; [exact N|].
    apply IH. now apply NoDup_set_add. }
  apply G. constructor.
Qed.

Lemma flat_map_length_le {A B : Type} (p : A -> bool) (g : A -> list B) (l : list A) :
  (forall a, (List.length (g a) <= if p a then 1 else 0)%nat) ->
  (List.length (flat_map g l) <= List.length (filter p l))%nat.
Proof.
  intros H. induction l as [|a l IH]; cbn; [lia|].
  rewrite length_app. specialize (H a). destruct (p a); cbn; lia.
Qed.

Lemma flat_map_nil {A B : Type} (g : A -> list B) (l : list A) :
  (forall a, g a = []) -> flat_map g l = [].
Proof.
  intros H. induction l as [|a l IH]; cbn; [reflexivity|]. now rewrite H, IH.
Qed.

(** Every flag of the skills check names one of the seven major languages,
    which the activity profile lists neither under that name nor with
    "pp" for "++" (names compared in lower case); there is at most one
    flag for each of them, so at most seven. *)
Theorem skill_flags_name_unlisted_major_languages :
  forall (resume_data : ResumeData) (github_data : Validator.GithubProfile),
    let github_languages :=
      Validator.github_languages_of (get (Validator.top_languages github_data) []) in
    let flags := Validator._validate_skills_vs_github resume_data github_data in
    Forall (FlagShape.unverified_skill github_languages) flags
    /\ (List.length flags <= 7)%nat.
Proof.
  intros rd gd gl flags. split.
  - unfold flags, Validator._validate_skills_vs_github. fold gl.
    apply Forall_flat_map. intros skill.
    destruct (Validator.mem skill Validator.major_language_claims) eqn:Mj; [|constructor].
    destruct (negb _) eqn:Ng; [|constructor].
    destruct (Validator.gt _ _); [|constructor].
    repeat constructor. exists skill.
    apply negb_true_iff in Ng.
    assert (V : forall s, In s (Validator.set_add (Validator.replace_plus_plus skill) [skill])
                          -> ~ In s gl).
    { intros s Hs Hin.
      assert (X : existsb (fun s => Validator.mem s gl)
                    (Validator.set_add (Validator.replace_plus_plus skill) [skill]) = true).
      { apply existsb_exists. exists s. split; [exact Hs|].
        now apply existsb_str_eqb_In. }
      congruence. }
    split; [reflexivity|]. split; [now apply existsb_str_eqb_In|].
    split; apply V; apply In_set_add; [right; now left | now left].
  - unfold flags, Validator._validate_skills_vs_github.
    set (claimed := Validator.claimed_skills_of (get (skill_keywords rd) [])).
    etransitivity.
    + apply (flat_map_length_le
               (fun skill => Validator.mem skill Validator.major_language_claims)).
      intros skill. destruct (Validator.mem skill _); [|cbn; lia].
      destruct (negb _); [|cbn; lia]. destruct (Validator.gt _ _); cbn; lia.
    + change 7%nat with (List.length Validator.major_language_claims).
      apply NoDup_incl_length.
      * apply NoDup_filter, NoDup_claimed_skills.
      * intros x Hx. apply filter_In in Hx. destruct Hx as [_ Hx].
        now apply existsb_str_eqb_In.
Qed.

(** A profile of at most five public repositories (or without that key)
    gets no flag from the skills check, whatever the facts record claims. *)
Theorem few_repos_no_skill_flag :
  forall (resume_data : ResumeData) (github_data : Validator.GithubProfile),
    (get (public_repos (Validator.activity github_data)) 0 <= 5)%Q ->
    Validator._validate_skills_vs_github resume_data github_data = [].
Proof.
  intros rd gd H. unfold Validator._validate_skills_vs_github.
  apply flat_map_nil. intros skill.
  destruct (Validator.mem skill _); [|reflexivity].
  destruct (negb _); [|reflexivity].
  unfold Validator.gt. apply Qle_bool_iff in H. now rewrite H.
Qed.

Lemma few_repos_no_skill_flag_witness :
  Validator._validate_skills_vs_github Examples.polyglot_resume
                                       Examples.small_profile = [].
Proof.
  apply (few_repos_no_skill_flag Examples.polyglot_resume Examples.small_profile).
  vm_compute. discriminate.
Defined.

End SkillsCheck.

(** ** The sub-scores under changes of their inputs *)

Section ScorerOrder.

Open Scope Q_scope.

Lemma ge_spec (a b : Q) : reflect (b <= a) (Scorer.ge a b).
Proof.
  unfold Scorer.ge. destruct (Qle_bool b a) eqn:E; constructor.
  - now apply Qle_bool_iff.
  - intros H. apply Qle_bool_iff in H. congruence.
Qed.

Lemma scorer_clamp_mono (x y : Q) : x <= y -> Scorer.clamp x <= Scorer.clamp y.
Proof.
  intros H. unfold Scorer.clamp, py_max, py_min.
  apply Q.max_le_compat_l, Q.min_le_compat_l, H.
Qed.


(** The activity score never falls when the commits, the repositories,
    the README score and the streak of a profile grow. *)
Theorem activity_score_monotone :
  forall (c1 c2 r1 r2 q1 q2 s1 s2 : Q),
    c1 <= c2 -> r1 <= r2 -> q1 <= q2 -> s1 <= s2 ->
    Scorer._calculate_activity_score
      (Some (mkGithubData (Some c1) (Some r1) (Some q1) (Some s1)))
    <= Scorer._calculate_activity_score
         (Some (mkGithubData (Some c2) (Some r2) (Some q2) (Some s2))).
Proof.
  intros c1 c2 r1 r2 q1 q2 s1 s2 Hc Hr Hq Hs.
  unfold Scorer._calculate_activity_score.
  cbn [present github_truthy commits_12_months public_repos
       readme_complexity_score contribution_streak is_some orb get].
  apply scorer_clamp_mono.
  unfold Scorer.commits_excellent, Scorer.commits_good, Scorer.commits_fair,
    Scorer.repos_excellent, Scorer.repos_good, Scorer.repos_fair.
  assert (S : py_min 1.0 (s1 / 30) <= py_min 1.0 (s2 / 30)).
  { unfold py_min. apply Q.min_le_compat_l. unfold Qdiv.
    apply Qmult_le_compat_r; [exact Hs | discriminate]. }
  assert (D : q1 / 5 <= q2 / 5).
  { unfold Qdiv. apply Qmult_le_compat_r; [exact Hq | discriminate]. }
  assert (C : (if Scorer.ge c1 500 then 4.0 else if Scorer.ge c1 200 then 3.0
               else if Scorer.ge c1 50 then 2.0 else 1.0)
              <= (if Scorer.ge c2 500 then 4.0 else if Scorer.ge c2 200 then 3.0
                  else if Scorer.ge c2 50 then 2.0 else 1.0)).
  { destruct (ge_spec c1 500); destruct (ge_spec c2 500);
      destruct (ge_spec c1 200); destruct (ge_spec c2 200);
      destruct (ge_spec c1 50); destruct (ge_spec c2 50); lra. }
  assert (R : (if Scorer.ge r1 30 then 3.0 else if Scorer.ge r1 15 then 2.0
               else if Scorer.ge r1 5 then 1.5 else 1.0)
              <= (if Scorer.ge r2 30 then 3.0 else if Scorer.ge r2 15 then 2.0
                  else if Scorer.ge r2 5 then 1.5 else 1.0)).
  { destruct (ge_spec r1 30); destruct (ge_spec r2 30);
      destruct (ge_spec r1 15); destruct (ge_spec r2 15);
      destruct (ge_spec r1 5); destruct (ge_spec r2 5); lra. }
  revert S D C R.
  generalize (py_min 1.0 (s1 / 30)) (py_min 1.0 (s2 / 30)) (q1 / 5) (q2 / 5).
  intros a1 a2 b1 b2 S D C R.
  apply Qplus_le_compat; [|exact S].
  apply Qplus_le_compat; [|exact D].
  apply Qplus_le_compat; [exact C | exact R].
Qed.

Lemma activity_score_monotone_witness :
  Scorer._calculate_activity_score
    (Some (mkGithubData (Some 40) (Some 4) (Some 5) (Some 0)))
  <= Scorer._calculate_activity_score
       (Some (mkGithubData (Some 600) (Some 40) (Some 10) (Some 45))).
Proof.
  apply (activity_score_monotone 40 600 4 40 5 10 0 45); vm_compute; discriminate.
Defined.

(** The experience depth never falls when the total of years grows, the
    list of positions and the semantic assessment staying the same. *)
Theorem experience_depth_monotone :
  forall (y1 y2 : Q) (positions : list Experience)
         (semantic_analysis : option SemanticAnalysis),
    y1 <= y2 ->
    Scorer._calculate_experience_depth
      (Some (Examples.resume_with y1 positions)) semantic_analysis
    <= Scorer._calculate_experience_depth
         (Some (Examples.resume_with y2 positions)) semantic_analysis.
Proof.
  intros y1 y2 ps sa Hy. unfold Scorer._calculate_experience_depth.
  cbn [present resume_truthy Examples.resume_with file_path parsed_at
       raw_text_length contact experience education skills certifications
       summary total_years_experience skill_keywords is_some orb get].
  apply scorer_clamp_mono.
  assert (Y : (if Scorer.ge y1 10 then 9.0 else if Scorer.ge y1 7 then 8.0
               else if Scorer.ge y1 5 then 7.0 else if Scorer.ge y1 3 then 6.0
               else if Scorer.ge y1 1 then 5.0 else 4.0)
              <= (if Scorer.ge y2 10 then 9.0 else if Scorer.ge y2 7 then 8.0
                  else if Scorer.ge y2 5 then 7.0 else if Scorer.ge y2 3 then 6.0
                  else if Scorer.ge y2 1 then 5.0 else 4.0)).
  { destruct (ge_spec y1 10); destruct (ge_spec y2 10);
      destruct (ge_spec y1 7); destruct (ge_spec y2 7);
      destruct (ge_spec y1 5); destruct (ge_spec y2 5);
      destruct (ge_spec y1 3); destruct (ge_spec y2 3);
      destruct (ge_spec y1 1); destruct (ge_spec y2 1); lra. }
  destruct (4 <=? List.length ps)%nat;
    destruct (present semantic_truthy sa);
    try (unfold Qdiv; apply Qmult_le_compat_r; [|discriminate]); lra.
Qed.

Lemma experience_depth_monotone_witness :
  Scorer._calculate_experience_depth (Some (Examples.resume_with 2 [])) None
  <= Scorer._calculate_experience_depth (Some (Examples.resume_with 8 [])) None.
Proof.
  apply (experience_depth_monotone 2 8 [] None). vm_compute. discriminate.
Defined.

(** With a semantic assessment, the lists of matching and of missing
    skills move the technical match by at most 0.5 up and 1.0 down from
    the score of the assessment, before the result is clamped to [0, 10]. *)
Theorem technical_match_adjustment_bounds :
  forall (resume_data : option ResumeData) (ai_score : Q)
         (relevance : option Q) (matching missing : option (list str)),
    let semantic_analysis :=
      mkSemanticAnalysis (Some ai_score) relevance matching missing in
    Scorer.clamp (ai_score - 1)
    <= Scorer._calculate_technical_match resume_data (Some semantic_analysis)
    /\ Scorer._calculate_technical_match resume_data (Some semantic_analysis)
       <= Scorer.clamp (ai_score + 0.5).
Proof.
  intros rd ai rel km ms sa. unfold Scorer._calculate_technical_match, sa.
  cbn [present semantic_truthy technical_match_score key_matching_skills
       missing_skills is_some orb get].
  split; apply scorer_clamp_mono;
    destruct (5 <=? List.length (get km []))%nat;
    destruct (3 <=? List.length (get km []))%nat;
    destruct (4 <=? List.length (get ms []))%nat;
    destruct (2 <=? List.length (get ms []))%nat; lra.
Qed.

(** A higher total never gets a lower rating. *)
Theorem interpretation_monotone :
  forall s1 s2 : Q,
    s1 <= s2 ->
    (Examples.rank (Scorer.rating (Scorer._interpret_score s1))
     <= Examples.rank (Scorer.rating (Scorer._interpret_score s2)))%nat.
Proof.
  intros s1 s2 H. unfold Scorer._interpret_score.
  destruct (ge_spec s1 8.5); destruct (ge_spec s2 8.5);
    destruct (ge_spec s1 7.0); destruct (ge_spec s2 7.0);
    destruct (ge_spec s1 5.5); destruct (ge_spec s2 5.5);
    destruct (ge_spec s1 4.0); destruct (ge_spec s2 4.0);
    try (exfalso; lra); vm_compute; repeat constructor.
Qed.

Lemma interpretation_monotone_witness :
  (Examples.rank (Scorer.rating (Scorer._interpret_score 5.8))
   <= Examples.rank (Scorer.rating (Scorer._interpret_score 8.6)))%nat.
Proof.
  apply (interpretation_monotone 5.8 8.6). vm_compute. discriminate.
Defined.

End ScorerOrder.

(** ** Bounds on what the fact extractor returns *)

Section ParserBounds.

Lemma length_upto {A : Type} (n : nat) (l : list A) :
  (List.length (upto n l) <= n)%nat.
Proof. unfold upto. apply firstn_le_length. Qed.

Lemma entry_excerpt_length (sec : str) (m : Re.Match) (next : option Re.Match)
    (clk : Clock) (k : nat) :
  exists excerpt : str,
    raw_text (fst (ResumeParser.entry sec m next clk k)) = Some excerpt
    /\ (List.length excerpt <= 300)%nat.
Proof.
  rewrite entry_run. cbn [raw_text]. eexists. split; [reflexivity|].
  apply length_upto.
Qed.

(** A facts record holds at most ten experience entries, and the excerpt
    of each has at most 300 characters. *)
Theorem experience_is_bounded :
  forall (clk : Clock) (path text : str),
    exists exps : list Experience,
      experience (run (ResumeParser.parse path text) clk) = Some exps
      /\ (List.length exps <= 10)%nat
      /\ Forall (fun e => exists excerpt : str,
                            raw_text e = Some excerpt
                            /\ (List.length excerpt <= 300)%nat) exps.
Proof.
  intros clk path text. rewrite parse_run. cbn [experience].
  eexists. split; [reflexivity|]. split.
  - rewrite extract_experience_run.
    destruct (experience_section text); [apply length_upto | cbn; lia].
  - apply extracted_Forall. intros. apply entry_excerpt_length.
Qed.

(** The summary of a facts record, when there is one, is not empty and has
    at most 1000 characters. *)
Theorem summary_is_bounded :
  forall text : str,
    match ResumeParser._extract_summary text with
    | Some summary => summary <> [] /\ (List.length summary <= 1000)%nat
    | None => True
    end.
Proof.
  intros text. unfold ResumeParser._extract_summary, ResumeParser.section_or_nothing.
  destruct (ResumeParser._extract_section text "summary") as [sec|]; [|exact I].
  destruct sec as [|c sec]; cbn [truthy]; [exact I|].
  split; [discriminate | apply length_upto].
Qed.

Lemma lookup_experience :
  ResumeParser.lookup "experience" ResumeParser.SECTION_PATTERNS
  = Some ResumeParser.experience_header.
Proof. reflexivity. Qed.

(** A text in which no experience header is found gives a facts record
    with no experience entry and a total of 0 years. *)
Theorem no_header_no_experience :
  forall (clk : Clock) (path text : str),
    Re.search ResumeParser.experience_header text = None ->
    experience (run (ResumeParser.parse path text) clk) = Some []
    /\ (exists total : Q,
          total_years_experience (run (ResumeParser.parse path text) clk) = Some total
          /\ (total == 0)%Q).
Proof.
  intros clk path text H.
  assert (E : forall n, ResumeParser._extract_experience text clk n = ([], n)).
  { intros n. unfold ResumeParser._extract_experience, ResumeParser._extract_section.
    rewrite lookup_experience, H. reflexivity. }
  rewrite parse_run. cbn [experience total_years_experience]. rewrite E.
  split; [reflexivity|].
  eexists. split; [reflexivity|]. reflexivity.
Qed.

Lemma no_header_no_experience_witness :
  experience (run (ResumeParser.parse "cv.pdf" "Ann Lee, baker") SpecFacts.january_2024)
  = Some [].
Proof.
  apply (no_header_no_experience SpecFacts.january_2024 "cv.pdf" "Ann Lee, baker").
  vm_compute. reflexivity.
Defined.

(** A position whose start date no format reads and whose end is
    "present", "current" or "now" gets the months between two successive
    readings of the clock: 0 months when both fall in the same month. *)
Theorem unreadable_start_of_current_job :
  forall (start end_ : str) (clk : Clock) (k : nat),
    ResumeParser.try_formats (strip start) ResumeParser.formats = None ->
    ResumeParser.present_like end_ = true ->
    year (clk (S k)) = year (clk k) ->
    month (clk (S k)) = month (clk k) ->
    ResumeParser._calculate_duration start end_ clk k = (0, S (S k)).
Proof.
  intros start end_ clk k Hs He Hy Hm.
  unfold ResumeParser._calculate_duration, ResumeParser._parse_date, bind, now, ret.
  rewrite Hs, He. unfold ResumeParser.months_between. rewrite Hy, Hm.
  f_equal. lia.
Qed.

Lemma unreadable_start_of_current_job_witness :
  ResumeParser._calculate_duration "Sept 2018" "Present" SpecFacts.january_2024 O
  = (0, 2%nat).
Proof.
  apply (unreadable_start_of_current_job "Sept 2018" "Present" SpecFacts.january_2024 O);
    vm_compute; reflexivity.
Defined.

End ParserBounds.

(** ** Stripped text *)

Section Stripped.

Lemma drop_while_idem (p : ascii -> bool) (s : str) :
  drop_while p (drop_while p s) = drop_while p s.
Proof.
  induction s as [|c s IH]; cbn; [reflexivity|].
  destruct (p c) eqn:E; [exact IH|]. cbn. now rewrite E.
Qed.

Lemma drop_while_snoc (p : ascii -> bool) (s : str) (c : ascii) :
  p c = false -> drop_while p (s ++ [c])%list = (drop_while p s ++ [c])%list.
Proof.
  intros E. induction s as [|x s IH]; cbn.
  - now rewrite E.
  - destruct (p x); [exact IH | reflexivity].
Qed.

Lemma rstrip_idem (s : str) : rstrip (rstrip s) = rstrip s.
Proof.
  unfold rstrip. now rewrite rev_involutive, drop_while_idem.
Qed.

Lemma lstrip_shape (s : str) :
  lstrip s = [] \/ exists c t, lstrip s = c :: t /\ is_space c = false.
Proof.
  unfold lstrip. induction s as [|c s IH]; cbn; [now left|].
  destruct (is_space c) eqn:E; [exact IH|]. right. now exists c, s.
Qed.

Lemma lstrip_rstrip_lstrip (s : str) :
  lstrip (rstrip (lstrip s)) = rstrip (lstrip s).
Proof.
  destruct (lstrip_shape s) as [E|(c & t & E & Hc)]; rewrite E.
  - reflexivity.
  - unfold rstrip. cbn [rev]. rewrite drop_while_snoc by exact Hc.
    rewrite rev_app_distr. cbn. unfold lstrip. cbn. now rewrite Hc.
Qed.

(** Stripping a stripped string changes nothing. *)
Lemma strip_idem (s : str) : strip (strip s) = strip s.
Proof.
  unfold strip. now rewrite lstrip_rstrip_lstrip, rstrip_idem.
Qed.

(** A section of a text, when one is found, has no white space at either
    end. *)
Theorem sections_are_stripped :
  forall (text section_name sec : str),
    ResumeParser._extract_section text section_name = Some sec ->
    strip sec = sec.
Proof.
  intros text name sec. unfold ResumeParser._extract_section.
  destruct (ResumeParser.lookup name ResumeParser.SECTION_PATTERNS); [|discriminate].
  destruct (Re.search _ text); [|discriminate].
  intros H. injection H as <-. apply strip_idem.
Qed.

Lemma sections_are_stripped_witness :
  strip ("2010 - 2011" : str) = ("2010 - 2011" : str).
Proof.
  apply (sections_are_stripped
           (("Experience " : str) ++ ["010"%char] ++ (" 2010 - 2011  " : str))%list
           "experience" "2010 - 2011").
  vm_compute. reflexivity.
Defined.

Lemma Forall_filter_map {A B : Type} (P : B -> Prop) (p : B -> bool)
    (f : A -> B) (l : list A) :
  (forall a, p (f a) = true -> P (f a)) -> Forall P (filter p (map f l)).
Proof.
  intros H. induction l as [|a l IH]; cbn; [constructor|].
  destruct (p (f a)) eqn:E; [constructor; [now apply H | exact IH] | exact IH].
Qed.

(** The skills of a facts record are at most 30 tokens; each is stripped
    and has between 2 and 49 characters. *)
Theorem skills_are_bounded :
  forall text : str,
    (List.length (ResumeParser._extract_skills text) <= 30)%nat
    /\ Forall (fun skill => strip skill = skill
                            /\ (2 <= List.length skill <= 49)%nat)
              (ResumeParser._extract_skills text).
Proof.
  intros text. unfold ResumeParser._extract_skills.
  destruct (ResumeParser.section_or_nothing _) as [sec|];
    [|split; [cbn; lia | constructor]].
  split; [apply length_upto|].
  apply Forall_upto, Forall_filter_map. intros piece H.
  apply andb_true_iff in H. destruct H as [H H3].
  apply andb_true_iff in H. destruct H as [_ H2].
  apply Nat.ltb_lt in H2, H3. split; [apply strip_idem | lia].
Qed.

(** The certifications of a facts record are at most 10 lines; each is
    stripped and has more than 5 characters. *)
Theorem certifications_are_bounded :
  forall text : str,
    (List.length (ResumeParser._extract_certifications text) <= 10)%nat
    /\ Forall (fun cert => strip cert = cert /\ (5 < List.length cert)%nat)
              (ResumeParser._extract_certifications text).
Proof.
  intros text. unfold ResumeParser._extract_certifications.
  destruct (ResumeParser.section_or_nothing _) as [sec|];
    [|split; [cbn; lia | constructor]].
  split; [apply length_upto|].
  apply Forall_upto, Forall_filter_map. intros piece H.
  apply andb_true_iff in H. destruct H as [_ H].
  apply Nat.ltb_lt in H. split; [apply strip_idem | exact H].
Qed.

End Stripped.

(** ** The skill-keyword table *)

Section KeywordTable.

Lemma nodupb_NoDup (l : list str) : nodupb l = true -> NoDup l.
Proof.
  induction l as [|x l IH]; cbn; [constructor|].
  intros H. apply andb_true_iff in H. destruct H as [Hx Hl].
  constructor; [|now apply IH].
  intros Hin. apply existsb_str_eqb_In in Hin. rewrite Hin in Hx. discriminate Hx.
Qed.

Lemma insert_by_count_perm (x : SkillKeyword) (l : list SkillKeyword) :
  Permutation (ResumeParser.insert_by_count x l) (x :: l).
Proof.
  induction l as [|y l IH]; cbn [ResumeParser.insert_by_count]; [reflexivity|].
  destruct (count x <? count y)%nat; [|reflexivity].
  rewrite IH. apply perm_swap.
Qed.

Lemma sort_by_count_perm (l : list SkillKeyword) :
  Permutation (ResumeParser.sort_by_count l) l.
Proof.
  unfold ResumeParser.sort_by_count.
  induction l as [|x l IH]; cbn [fold_right]; [reflexivity|].
  rewrite insert_by_count_perm. now constructor.
Qed.

Lemma insert_by_count_hd (y x : SkillKeyword) (l : list SkillKeyword) :
  HdRel count_ge y l -> count_ge y x ->
  HdRel count_ge y (ResumeParser.insert_by_count x l).
Proof.
  intros H Hx. destruct l as [|z l]; cbn [ResumeParser.insert_by_count];
    [now constructor|].
  destruct (count x <? count z)%nat; constructor; [now inversion H | exact Hx].
Qed.

Lemma insert_by_count_sorted (x : SkillKeyword) (l : list SkillKeyword) :
  Sorted count_ge l -> Sorted count_ge (ResumeParser.insert_by_count x l).
Proof.
  induction 1 as [|y l Hs IH Hd]; cbn [ResumeParser.insert_by_count];
    [repeat constructor|].
  destruct (Nat.ltb_spec (count x) (count y)).
  - constructor; [exact IH|]. apply insert_by_count_hd; [exact Hd|].
    unfold count_ge. lia.
  - constructor; [now constructor|]. constructor. unfold count_ge. lia.
Qed.

Lemma sort_by_count_sorted (l : list SkillKeyword) :
  Sorted count_ge (ResumeParser.sort_by_count l).
Proof.
  unfold ResumeParser.sort_by_count.
  induction l as [|x l IH]; cbn [fold_right]; [constructor|].
  now apply insert_by_count_sorted.
Qed.

Lemma keywords_of_flat_map (c : str -> bool) (n : str -> nat) (l : list str) :
  map keyword
      (flat_map (fun k => if c k then [mkSkillKeyword k (n k)] else []) l)
  = filter c l.
Proof.
  induction l as [|k l IH]; cbn; [reflexivity|].
  destruct (c k); cbn; now rewrite IH.
Qed.

Lemma Forall_flat_map_in {A B : Type} (P : B -> Prop) (f : A -> list B) (l : list A) :
  (forall a, In a l -> Forall P (f a)) -> Forall P (flat_map f l).
Proof.
  induction l as [|a l IH]; intros H; cbn; [constructor|].
  apply Forall_app. split; [apply H; now left|].
  apply IH. intros b Hb. apply H. now right.
Qed.

(** The skill-keyword table of a text is sorted by count, highest first;
    every entry has a count of at least 1 and a keyword of the vocabulary
    [TECH_KEYWORDS]; no keyword has two entries. *)
Theorem skill_keyword_table_invariants :
  forall text : str,
    let table := ResumeParser._extract_skill_keywords text in
    StronglySorted count_ge table
    /\ Forall (fun k => (1 <= count k)%nat
                        /\ In (keyword k) ResumeParser.TECH_KEYWORDS) table
    /\ NoDup (map keyword table).
Proof.
  intros text table. unfold table, ResumeParser._extract_skill_keywords.
  set (found := fun kw => Re.finditer (ResumeParser.keyword_pattern kw) (lower text)).
  set (base := flat_map _ ResumeParser.TECH_KEYWORDS).
  assert (P : Permutation (ResumeParser.sort_by_count base) base)
    by apply sort_by_count_perm.
  split; [|split].
  - apply Sorted_StronglySorted; [|apply sort_by_count_sorted].
    intros a b c Hab Hbc. unfold count_ge in *. lia.
  - apply (Permutation_Forall (Permutation_sym P)).
    unfold base. apply Forall_flat_map_in. intros kw Hin. cbv zeta.
    destruct (Re.finditer _ _) as [|m ms]; cbn [truthy]; [constructor|].
    constructor; [|constructor]. split; [|exact Hin].
    cbn [count List.length]. lia.
  - apply (Permutation_NoDup (Permutation_map keyword (Permutation_sym P))).
    unfold base.
    rewrite (keywords_of_flat_map (fun kw => truthy (found kw))
                                  (fun kw => List.length (found kw))).
    apply NoDup_filter, nodupb_NoDup. vm_compute. reflexivity.
Qed.

End KeywordTable.

(** ** The contact record *)

Section ContactRecord.

Lemma scan_class_none (p : ascii -> bool) (subject : str) (rst : str) :
  forall (i : nat) (pv : option ascii),
    Re.scan (Re.Cls p) subject i pv rst = None ->
    forallb (fun c => negb (p c)) rst = true.
Proof.
  induction rst as [|c rst IH]; intros i pv H; [reflexivity|].
  cbn [Re.scan] in H. unfold Re.match_at in H. cbn [Re.exec Re.rest] in H.
  destruct (p c) eqn:E; [discriminate H|].
  cbn [forallb]. rewrite E. cbn [negb andb]. exact (IH _ _ H).
Qed.

Lemma search_class_none (p : ascii -> bool) (line : str) :
  is_some (Re.search (Re.Cls p) line) = false ->
  forallb (fun c => negb (p c)) line = true.
Proof.
  unfold Re.search. intros H.
  destruct (Re.scan (Re.Cls p) line 0 None line) eqn:E; [discriminate H|].
  exact (scan_class_none p line line _ _ E).
Qed.

Lemma first_name_line_shape (lines : list str) (n : str) :
  ResumeParser.first_name_line lines = Some n ->
  n <> [] /\ strip n = n /\ (List.length (split_ws n) <= 4)%nat
  /\ forallb (fun c => negb (Re.one_of "@|www.|http|.com" c)) n = true.
Proof.
  induction lines as [|line lines IH]; cbn [ResumeParser.first_name_line];
    [discriminate|].
  destruct (truthy (strip line) && negb (is_some (Re.search ResumeParser.contact_like (strip line))))
    eqn:E; [|exact IH].
  destruct (Nat.leb_spec (List.length (split_ws (strip line))) 4); [|exact IH].
  intros H'. injection H' as <-.
  apply andb_true_iff in E. destruct E as [T S].
  apply negb_true_iff in S.
  split; [destruct (strip line); [discriminate T | discriminate]|].
  split; [apply strip_idem|]. split; [assumption|].
  now apply search_class_none.
Qed.

(** A name in the contact record is a stripped, non-empty line of at most
    four tokens that holds none of the characters @ | w . h t p c o m; a
    phone number in it has at least ten digits; the location is never
    filled in. *)
Theorem contact_record_invariants :
  forall text : str,
    let contact := ResumeParser._extract_contact text in
    match name contact with
    | Some n =>
        n <> [] /\ strip n = n /\ (List.length (split_ws n) <= 4)%nat
        /\ forallb (fun c => negb (Re.one_of "@|www.|http|.com" c)) n = true
    | None => True
    end
    /\ match phone contact with
       | Some number => (10 <= List.length (filter is_digit number))%nat
       | None => True
       end
    /\ location contact = None.
Proof.
  intros text contact. unfold contact, ResumeParser._extract_contact.
  cbn [name phone location]. split; [|split; [|reflexivity]].
  - destruct (ResumeParser.first_name_line _) as [n|] eqn:E; [|exact I].
    now apply first_name_line_shape in E.
  - destruct (Re.search ResumeParser.PHONE_PATTERN text) as [m|]; [|exact I].
    destruct (Nat.leb_spec 10 (List.length (filter is_digit (Re.group0 m))));
      [assumption | exact I].
Qed.

End ContactRecord.

(** ** The verified skills of the report *)

Section VerifiedSkills.

Open Scope Q_scope.

Lemma insert_by_confidence_perm (x : ReportGenerator.VerifiedSkill)
    (l : list ReportGenerator.VerifiedSkill) :
  Permutation (ReportGenerator.insert_by_confidence x l) (x :: l).
Proof.
  induction l as [|y l IH]; cbn [ReportGenerator.insert_by_confidence];
    [reflexivity|].
  destruct (negb _); [|reflexivity]. rewrite IH. apply perm_swap.
Qed.

Lemma sort_by_confidence_perm (l : list ReportGenerator.VerifiedSkill) :
  Permutation (ReportGenerator.sort_by_confidence l) l.
Proof.
  unfold ReportGenerator.sort_by_confidence.
  induction l as [|x l IH]; cbn [fold_right]; [reflexivity|].
  rewrite insert_by_confidence_perm. now constructor.
Qed.

Lemma insert_by_confidence_hd (y x : ReportGenerator.VerifiedSkill)
    (l : list ReportGenerator.VerifiedSkill) :
  HdRel confidence_ge y l -> confidence_ge y x ->
  HdRel confidence_ge y (ReportGenerator.insert_by_confidence x l).
Proof.
  intros H Hx. destruct l as [|z l]; cbn [ReportGenerator.insert_by_confidence];
    [now constructor|].
  destruct (negb _); constructor; [now inversion H | exact Hx].
Qed.

Lemma insert_by_confidence_sorted (x : ReportGenerator.VerifiedSkill)
    (l : list ReportGenerator.VerifiedSkill) :
  Sorted confidence_ge l ->
  Sorted confidence_ge (ReportGenerator.insert_by_confidence x l).
Proof.
  induction 1 as [|y l Hs IH Hd]; cbn [ReportGenerator.insert_by_confidence];
    [repeat constructor|].
  destruct (Qle_bool (ReportGenerator.confidence y) (ReportGenerator.confidence x)) eqn:E;
    cbn [negb].
  - apply Qle_bool_iff in E. constructor; [now constructor|]. constructor. exact E.
  - assert (L : ReportGenerator.confidence x <= ReportGenerator.confidence y).
    { apply Qlt_le_weak, Qnot_le_lt. intros C. apply Qle_bool_iff in C. congruence. }
    constructor; [exact IH|]. apply insert_by_confidence_hd; [exact Hd | exact L].
Qed.

Lemma sort_by_confidence_sorted (l : list ReportGenerator.VerifiedSkill) :
  Sorted confidence_ge (ReportGenerator.sort_by_confidence l).
Proof.
  unfold ReportGenerator.sort_by_confidence.
  induction l as [|x l IH]; cbn [fold_right]; [constructor|].
  now apply insert_by_confidence_sorted.
Qed.

Lemma StronglySorted_upto {A : Type} (R : A -> A -> Prop) (n : nat) (l : list A) :
  StronglySorted R l -> StronglySorted R (upto n l).
Proof.
  intros H. revert n. induction H as [|x l Hs IH Hx]; intros [|n]; cbn;
    try constructor.
  - apply IH.
  - now apply Forall_upto.
Qed.

Lemma verify_level (gl am : list str) (sk : str) :
  confidence_level (ReportGenerator.confidence (ReportGenerator.verify gl am sk)).
Proof.
  unfold ReportGenerator.verify, confidence_level. cbn [ReportGenerator.confidence].
  destruct (existsb _ gl); destruct (existsb _ am); vm_compute; tauto.
Qed.

(** The verified skills of a report are at most 20; they are sorted by
    confidence, highest first; every confidence is 0.5, 0.7, 0.8 or 1.0;
    and without a facts record there are none. *)
Theorem verified_skills_invariants :
  forall (github_data : option Validator.GithubProfile)
         (resume_data : option ResumeData)
         (semantic_analysis : option SemanticAnalysis),
    let verified :=
      ReportGenerator._extract_verified_skills github_data resume_data
                                               semantic_analysis in
    (List.length verified <= 20)%nat
    /\ StronglySorted confidence_ge verified
    /\ Forall (fun v => confidence_level (ReportGenerator.confidence v)) verified
    /\ ReportGenerator._extract_verified_skills github_data None semantic_analysis
       = [].
Proof.
  intros gd rd sa verified. unfold verified, ReportGenerator._extract_verified_skills.
  split; [apply length_upto|]. split; [|split; [|reflexivity]].
  - apply StronglySorted_upto, Sorted_StronglySorted; [|apply sort_by_confidence_sorted].
    intros a b c Hab Hbc. unfold confidence_ge in *. now apply Qle_trans with (y := ReportGenerator.confidence b).
  - apply Forall_upto.
    apply (Permutation_Forall (Permutation_sym (sort_by_confidence_perm _))).
    apply Forall_map, Forall_forall. intros sk _. apply verify_level.
Qed.

End VerifiedSkills.
